(** * Scrapling fetchers: the dispatch layer and its toolbelt

    A shallow embedding of [scrapling/engines/toolbelt/custom.py] and
    [scrapling/fetchers.py], and the properties of the fetch-dispatch layer
    proved over it.

    The file has two halves.  The first one holds the embedding: the Python
    values the code inspects, the exceptions and the effects it has, and one
    definition per source function, under the source's name.  The second one
    holds the theorems. *)

From stdpp Require Import gmap strings list fin_maps.
From Stdlib Require Import ZArith Lia.

Set Warnings "-register-all,-clear-no-such-hyp".
Open Scope string_scope.
Open Scope Z_scope.
Open Scope list_scope.

(** ** Python values *)

Module Py.

(** The runtime types ("kinds") the code tests with [type], [isinstance]
    and [callable].  A user class carries its name and the names of the
    classes it inherits from (its ancestors, [object] left out). *)
Inductive pytype : Type :=
| TObject
| TNoneType
| TBool
| TInt
| TStr
| TList
| TDict
| TFunction
| TType
| TClass (name : string) (ancestors : list string).

#[global] Instance pytype_eq_dec : EqDecision pytype.
Proof. solve_decision. Defined.

(** What a heap object is: a function (or bound method), a class object,
    or an instance of a user class. *)
Inductive objkind : Type :=
| KFunction
| KClassObject
| KInstance (name : string) (ancestors : list string).

(** What [callable] and [inspect.signature] find in a heap object: it cannot
    be called; or it can, and [inspect.signature] reports these parameters
    for it; or it can, and [inspect.signature] finds no signature (as for
    some built-in functions) and raises [ValueError]. *)
Inductive callsig : Type :=
| NotCallable
| Signature (parameters : list string)
| NoSignature.

(** Values.  A heap object has an address (its identity), its attributes as
    [getattr] resolves them, in resolution order, what a call of it meets,
    and its truth value in a condition (what its [__bool__] or [__len__]
    make of it; true when it has neither). *)
Inductive pyval : Type :=
| PyNone
| PyBool (b : bool)
| PyInt (z : Z)
| PyStr (s : string)
| PyList (items : list pyval)
| PyDict (d : gmap string pyval)
| PyObj (addr : positive) (kind : objkind)
        (attrs : list (string * pyval)) (sig : callsig) (truth : bool).

(** [t.__name__] *)
Definition type_name (t : pytype) : string :=
  match t with
  | TObject => "object"
  | TNoneType => "NoneType"
  | TBool => "bool"
  | TInt => "int"
  | TStr => "str"
  | TList => "list"
  | TDict => "dict"
  | TFunction => "function"
  | TType => "type"
  | TClass name _ => name
  end.

(** [type(v)] *)
Definition type_of (v : pyval) : pytype :=
  match v with
  | PyNone => TNoneType
  | PyBool _ => TBool
  | PyInt _ => TInt
  | PyStr _ => TStr
  | PyList _ => TList
  | PyDict _ => TDict
  | PyObj _ KFunction _ _ _ => TFunction
  | PyObj _ KClassObject _ _ _ => TType
  | PyObj _ (KInstance name ancestors) _ _ _ => TClass name ancestors
  end.

(** [issubclass(a, b)]: every type is a subclass of itself and of
    [object], [bool] is a subclass of [int], and a user class is a
    subclass of each of its ancestors. *)
Definition issubclass (a b : pytype) : bool :=
  bool_decide (a = b)
  || bool_decide (b = TObject)
  || match a with
     | TBool => bool_decide (b = TInt)
     | TClass _ ancestors => bool_decide (type_name b ∈ ancestors)
     | _ => false
     end.

(** [isinstance(v, t)] *)
Definition isinstance (v : pyval) (t : pytype) : bool :=
  issubclass (type_of v) t.

(** Truth value of [v], as [if v:] and [v or w] take it. *)
Definition truthy (v : pyval) : bool :=
  match v with
  | PyNone => false
  | PyBool b => b
  | PyInt z => negb (Z.eqb z 0)
  | PyStr s => negb (String.eqb s EmptyString)
  | PyList items => match items with [] => false | _ => true end
  | PyDict d => negb (bool_decide (d = ∅))
  | PyObj _ _ _ _ truth => truth
  end.

(** [a or b] *)
Definition or_ (a b : pyval) : pyval :=
  if truthy a then a else b.

(** First binding of [name] in an attribute list. *)
Fixpoint assoc (name : string) (l : list (string * pyval)) : option pyval :=
  match l with
  | [] => None
  | (k, v) :: rest => if String.eqb k name then Some v else assoc name rest
  end.

(** [getattr(v, name)], [None] for an [AttributeError].  The values of the
    built-in types are modelled without attributes: the code only ever
    asks for the attribute [fetch], which none of them has. *)
Definition getattr (v : pyval) (name : string) : option pyval :=
  match v with
  | PyObj _ _ attrs _ _ => assoc name attrs
  | _ => None
  end.

(** [hasattr(v, name)] *)
Definition hasattr (v : pyval) (name : string) : bool :=
  match getattr v name with Some _ => true | None => false end.

(** [callable(v)] *)
Definition callable (v : pyval) : bool :=
  match v with
  | PyObj _ _ _ NotCallable _ => false
  | PyObj _ _ _ _ _ => true
  | _ => false
  end.

(** Exceptions.  [TypeError] is the one this layer raises itself, with the
    text the source gives it.  [PyError cls about] is an exception of the
    class [cls] that the interpreter or a library raises about the values
    [about]; its text is not modelled.  Anything a backend raises crosses
    the layer untouched. *)
Inductive exn : Type :=
| TypeError (msg : string)
| PyError (cls : string) (about : list pyval)
| BackendError (payload : pyval).

(** The outcome of a call: a value, or a raised exception. *)
Inductive result (A : Type) : Type :=
| Returns (a : A)
| Raises (e : exn).
Arguments Returns {A} a.
Arguments Raises {A} e.

(** [inspect.signature(v).parameters]: the parameters of a callable with a
    signature, a [ValueError] for a callable without one, a [TypeError] for
    a value that cannot be called. *)
Definition inspect_signature (v : pyval) : result (list string) :=
  match v with
  | PyObj _ _ _ (Signature parameters) _ => Returns parameters
  | PyObj _ _ _ NoSignature _ => Raises (PyError "ValueError" [v])
  | _ => Raises (PyError "TypeError" [v])
  end.

End Py.
Import Py.

(** ** [scrapling/engines/toolbelt/custom.py] *)

(** [check_if_engine_usable(engine)], lines 148-171. *)
Definition check_if_engine_usable (engine : pyval) : result pyval :=
  if hasattr engine "fetch" then
    match getattr engine "fetch" with
    | Some fetch_function =>
        if callable fetch_function then
          match inspect_signature fetch_function with
          | Returns parameters =>
              if (0 <? length parameters)%nat then
                Returns engine
              else
                Raises (TypeError "Engine class must have a callable method 'fetch' with the first argument used for the url.")
          | Raises e => Raises e
          end
        else
          Raises (TypeError "Invalid engine class! Engine class must have a callable method 'fetch'")
    | None => Raises (TypeError "Invalid engine class! Engine class must have the method 'fetch'")
    end
  else
    Raises (TypeError "Invalid engine class! Engine class must have the method 'fetch'").

(** ** Effects

    The layer calls into collaborators that are not part of it: the engine
    classes, the engines' methods, and the logging set-up.  What they do is
    left to a [world]: given the events so far, the last of which is the call
    being made, it says what the call returns or raises.  A computation
    threads the list of events, oldest first. *)

Module Eff.

Inductive loglevel : Type := WARNING | ERROR.

(** What is called: one of the engine classes [scrapling.engines] exports, or
    a value the caller supplied. *)
Inductive callee : Type :=
| Builtin (name : string)
| Supplied (v : pyval).

Inductive event : Type :=
| EvCheckEngine (candidate : pyval)
    (* [check_if_engine_usable(candidate)] is entered *)
| EvInstantiate (cls : callee) (args : list pyval) (kwargs : list (string * pyval))
    (* the call of [cls] on [args] and [kwargs] *)
| EvInvoke (receiver : pyval) (method : string)
           (args : list pyval) (kwargs : list (string * pyval))
    (* the call of [receiver.method] on [args] and [kwargs] *)
| EvSetupLogging (level : string)
    (* [setup_basic_logging(level=level)] *)
| EvLog (level : loglevel) (msg : string).
    (* [logging.warning(msg)], [logging.error(msg)] *)

Abbreviation trace := (list event).
Definition world : Type := trace -> result pyval.

Definition M (A : Type) : Type := world -> trace -> result A * trace.

Definition ret {A} (a : A) : M A := fun _ t => (Returns a, t).

Definition bind {A B} (m : M A) (k : A -> M B) : M B :=
  fun w t =>
    match m w t with
    | (Returns a, t') => k a w t'
    | (Raises e, t') => (Raises e, t')
    end.

#[global] Instance M_ret : MRet M := @ret.
#[global] Instance M_bind : MBind M := fun A B k m => bind m k.

(** [raise e] *)
Definition raise {A} (e : exn) : M A := fun _ t => (Raises e, t).

(** The outcome of a pure call, in the monad. *)
Definition lift {A} (r : result A) : M A := fun _ t => (r, t).

(** An effect that returns nothing the caller uses. *)
Definition emit (ev : event) : M unit := fun _ t => (Returns tt, (t ++ [ev])%list).

(** A call into a collaborator: recorded, and answered by the world. *)
Definition extern (ev : event) : M pyval :=
  fun w t => let t' := (t ++ [ev])%list in (w t', t').

Definition is_check (ev : event) : bool :=
  match ev with EvCheckEngine _ => true | _ => false end.


Definition is_warning (ev : event) : bool :=
  match ev with EvLog WARNING _ => true | _ => false end.

(** How many times the capability check was entered in a history. *)
Definition checks (t : trace) : nat := length (filter (fun ev => is_check ev = true) t).

End Eff.
Import Eff.

(** The double quote character, as a string. *)
Definition dquote : string := String (Ascii.ascii_of_nat 34) EmptyString.

(** The call [check_if_engine_usable(engine)] as the dispatchers make it. *)
Definition call_check_if_engine_usable (engine : pyval) : M pyval :=
  emit (EvCheckEngine engine);; lift (check_if_engine_usable engine).

(** *** [class Response(Adaptor)], lines 13-25 *)

Module Adaptor.

(** Modelled from the spec: the parsing collaborator [Adaptor]
    ([scrapling.parser]) is not among these sources.  By the data model of the
    spec a result exposes [url], [text], [body] and [encoding]; the
    constructor keeps what it is given, and the remaining keyword arguments
    are the parsing configuration. *)
Record t : Type := init {
  text : string;
  body : list Byte.byte;
  url : pyval;
  encoding : string;
  arguments : gmap string pyval
}.

End Adaptor.

Module Response.

Record t : Type := mk {
  status : Z;
  reason : string;
  cookies : gmap string pyval;
  headers : gmap string pyval;
  request_headers : gmap string pyval;
  adaptor : Adaptor.t
}.

(** [Response.__init__(url, text, body, status, reason, cookies, headers,
    request_headers, encoding, **adaptor_arguments)] *)
Definition init (url : string) (text : string) (body : list Byte.byte)
    (status : Z) (reason : string) (cookies headers request_headers : gmap string pyval)
    (encoding : string) (adaptor_arguments : gmap string pyval) : t :=
  let automatch_domain := default PyNone (adaptor_arguments !! "automatch_domain") in
  let adaptor_arguments := delete "automatch_domain" adaptor_arguments in
  {| status := status;
     reason := reason;
     cookies := cookies;
     headers := headers;
     request_headers := request_headers;
     adaptor := Adaptor.init text body (or_ automatch_domain (PyStr url))
                             encoding adaptor_arguments |}.

(** The attribute [url] of a response, inherited from [Adaptor]. *)
Definition url (r : t) : pyval := Adaptor.url (adaptor r).

End Response.

(** *** [class BaseFetcher], lines 31-68 *)

Module BaseFetcher.

Record t : Type := mk { adaptor_arguments : gmap string pyval }.

Definition warning_text : string :=
  "[Ignored] The argument " +:+ dquote +:+ "automatch_domain" +:+ dquote
  +:+ " must be of string type".

(** [BaseFetcher.__init__] *)
Definition init (huge_tree keep_comments auto_match storage storage_args debug
                 automatch_domain : pyval) : M t :=
  let adaptor_arguments : gmap string pyval :=
    <["debug" := debug]>
      (<["storage_args" := storage_args]>
        (<["storage" := storage]>
          (<["auto_match" := auto_match]>
            (<["keep_comments" := keep_comments]>
              (<["huge_tree" := huge_tree]> ∅))))) in
  emit (EvSetupLogging (if truthy debug then "debug" else "info"));;
  if truthy automatch_domain then
    if negb (bool_decide (type_of automatch_domain = TStr)) then
      emit (EvLog WARNING warning_text);;
      mret (mk adaptor_arguments)
    else
      mret (mk (<["automatch_domain" := automatch_domain]> adaptor_arguments))
  else
    mret (mk adaptor_arguments).

End BaseFetcher.

(** *** The decorator [cache] *)

Module Cache.

(** Modelled from the spec: the decorator [cache] ([scrapling.core.utils]) is
    not among these sources.  By the spec a decorated function is memoized
    per distinct argument, up to a bounded number of entries ([maxsize]),
    with least-recently-used eviction.  The state keeps the entries, most
    recently used first.  It also carries the count of the runs of the
    decorated function: the cache hands it to the function when it calls it,
    and the function, not the cache, moves it on. *)
Record state : Type := mk {
  entries : list (Z * string);
  runs : nat
}.

Definition empty : state := mk [] 0.

Fixpoint find (key : Z) (l : list (Z * string)) : option string :=
  match l with
  | [] => None
  | (k, v) :: rest => if Z.eqb k key then Some v else find key rest
  end.

Fixpoint drop (key : Z) (l : list (Z * string)) : list (Z * string) :=
  match l with
  | [] => []
  | (k, v) :: rest => if Z.eqb k key then drop key rest else (k, v) :: drop key rest
  end.

Definition call (maxsize : nat) (f : Z -> nat -> string * nat) (key : Z) (st : state)
    : string * state :=
  match find key (entries st) with
  | Some v =>
      (v, mk ((key, v) :: drop key (entries st)) (runs st))
  | None =>
      let '(v, n) := f key (runs st) in
      (v, mk (take maxsize ((key, v) :: entries st)) n)
  end.

End Cache.

(** *** [class StatusText], lines 71-145 *)

Module StatusText.

(** The literal of [_phrases], lines 76-139. *)
Definition phrase_table : list (Z * string) :=
  [ (100, "Continue"); (101, "Switching Protocols"); (102, "Processing");
    (103, "Early Hints");
    (200, "OK"); (201, "Created"); (202, "Accepted");
    (203, "Non-Authoritative Information"); (204, "No Content");
    (205, "Reset Content"); (206, "Partial Content"); (207, "Multi-Status");
    (208, "Already Reported"); (226, "IM Used");
    (300, "Multiple Choices"); (301, "Moved Permanently"); (302, "Found");
    (303, "See Other"); (304, "Not Modified"); (305, "Use Proxy");
    (307, "Temporary Redirect"); (308, "Permanent Redirect");
    (400, "Bad Request"); (401, "Unauthorized"); (402, "Payment Required");
    (403, "Forbidden"); (404, "Not Found"); (405, "Method Not Allowed");
    (406, "Not Acceptable"); (407, "Proxy Authentication Required");
    (408, "Request Timeout"); (409, "Conflict"); (410, "Gone");
    (411, "Length Required"); (412, "Precondition Failed");
    (413, "Payload Too Large"); (414, "URI Too Long");
    (415, "Unsupported Media Type"); (416, "Range Not Satisfiable");
    (417, "Expectation Failed"); (418, "I'm a teapot");
    (421, "Misdirected Request"); (422, "Unprocessable Entity");
    (423, "Locked"); (424, "Failed Dependency"); (425, "Too Early");
    (426, "Upgrade Required"); (428, "Precondition Required");
    (429, "Too Many Requests"); (431, "Request Header Fields Too Large");
    (451, "Unavailable For Legal Reasons");
    (500, "Internal Server Error"); (501, "Not Implemented");
    (502, "Bad Gateway"); (503, "Service Unavailable");
    (504, "Gateway Timeout"); (505, "HTTP Version Not Supported");
    (506, "Variant Also Negotiates"); (507, "Insufficient Storage");
    (508, "Loop Detected"); (510, "Not Extended");
    (511, "Network Authentication Required") ].

(** [_phrases = MappingProxyType({...})]: a read-only dictionary. *)
Definition _phrases : gmap Z string := list_to_map phrase_table.

(** The body of [get]: [cls._phrases.get(status_code, "Unknown Status Code")]. *)
Definition get_body (status_code : Z) : string :=
  default "Unknown Status Code" (_phrases !! status_code).

(** A run of the body of [get], counted. *)
Definition get_body_counted (status_code : Z) (n : nat) : string * nat :=
  (get_body status_code, S n).

(** [StatusText.get], decorated with [cache(maxsize=128)]. *)
Definition get (status_code : Z) (st : Cache.state) : string * Cache.state :=
  Cache.call 128 get_body_counted status_code st.

(** The cache after a run of lookups, from the state [st]. *)
Fixpoint lookups (codes : list Z) (st : Cache.state) : Cache.state :=
  match codes with
  | [] => st
  | code :: rest => lookups rest (snd (get code st))
  end.

End StatusText.

(** *** [get_variable_name] and [check_type_validity], lines 174-225 *)

Section TypeValidator.

(** [a is b], and the module's [globals()], in insertion order. *)
Variable is_ : pyval -> pyval -> bool.
Variable globals : list (string * pyval).

(** The inner loop of [get_variable_name]: the first name of [scope] bound to
    [var] itself. *)
Fixpoint name_in_scope (var : pyval) (scope : list (string * pyval)) : option string :=
  match scope with
  | [] => None
  | (name, value) :: rest =>
      if is_ value var then Some name else name_in_scope var rest
  end.

(** The outer loop. *)
Fixpoint name_in_scopes (var : pyval) (scopes : list (list (string * pyval)))
    : option string :=
  match scopes with
  | [] => None
  | scope :: rest =>
      match name_in_scope var scope with
      | Some name => Some name
      | None => name_in_scopes var rest
      end
  end.

(** [get_variable_name(var)]: [locals()] is the frame of the function itself,
    where only [var] is bound when the list of scopes is built. *)
Definition get_variable_name (var : pyval) : option string :=
  name_in_scopes var [globals; [("var", var)]].

(** [a or b] on optional strings: [None] and the empty string are false. *)
Definition str_or (a b : option string) : option string :=
  match a with
  | Some s => if String.eqb s EmptyString then b else a
  | None => b
  end.

(** [param_name or get_variable_name(variable) or "Unknown"] *)
Definition var_name_of (param_name : option string) (variable : pyval) : string :=
  match str_or (str_or param_name (get_variable_name variable)) (Some "Unknown") with
  | Some s => s
  | None => "None"
  end.

Definition is_none (v : pyval) : bool :=
  match v with PyNone => true | _ => false end.

Definition none_msg (var_name : string) : string :=
  "Argument " +:+ dquote +:+ var_name +:+ dquote +:+ " cannot be None".

Definition type_msg (var_name : string) (type_names : list string) : string :=
  "Argument " +:+ dquote +:+ var_name +:+ dquote +:+ " must be of type "
  +:+ String.concat " or " type_names.

(** [check_type_validity(variable, valid_types, default_value, critical,
    param_name)] *)
Definition check_type_validity (variable : pyval) (valid_types : option (list pytype))
    (default_value : pyval) (critical : bool) (param_name : option string) : M pyval :=
  let var_name := var_name_of param_name variable in
  let valid_types := default [] valid_types in
  if is_none variable then
    if bool_decide (TNoneType ∈ valid_types) then
      mret variable
    else
      let error_msg := none_msg var_name in
      if critical then
        raise (TypeError error_msg)
      else
        emit (EvLog ERROR ("[Ignored] " +:+ error_msg));;
        mret default_value
  else if match valid_types with [] => true | _ => false end then
    mret variable
  else if negb (existsb (isinstance variable) valid_types) then
    let type_names := map type_name valid_types in
    let error_msg := type_msg var_name type_names in
    if critical then
      raise (TypeError error_msg)
    else
      emit (EvLog ERROR ("[Ignored] " +:+ error_msg));;
      mret default_value
  else
    mret variable.

End TypeValidator.

(** [do_nothing(page)], lines 229-231. *)
Definition do_nothing (page : pyval) : pyval := page.

(** ** [scrapling/fetchers.py] *)

(** [adaptor_arguments=self.adaptor_arguments] *)
Definition adaptor_kwarg (self : BaseFetcher.t) : string * pyval :=
  ("adaptor_arguments", PyDict (BaseFetcher.adaptor_arguments self)).

(** *** [class Fetcher(BaseFetcher)], lines 7-62 *)

Module Fetcher.

(** [Fetcher.get], lines 12-23. *)
Definition get (self : BaseFetcher.t)
    (url follow_redirects timeout stealthy_headers : pyval)
    (kwargs : list (string * pyval)) : M pyval :=
  engine ← extern (EvInstantiate (Builtin "StaticEngine")
                     [follow_redirects; timeout] [adaptor_kwarg self]);
  response_object ← extern (EvInvoke engine "get" [url; stealthy_headers] kwargs);
  mret response_object.

(** [Fetcher.post], lines 25-36. *)
Definition post (self : BaseFetcher.t)
    (url follow_redirects timeout stealthy_headers : pyval)
    (kwargs : list (string * pyval)) : M pyval :=
  engine ← extern (EvInstantiate (Builtin "StaticEngine")
                     [follow_redirects; timeout] [adaptor_kwarg self]);
  response_object ← extern (EvInvoke engine "post" [url; stealthy_headers] kwargs);
  mret response_object.

(** [Fetcher.put], lines 38-49. *)
Definition put (self : BaseFetcher.t)
    (url follow_redirects timeout stealthy_headers : pyval)
    (kwargs : list (string * pyval)) : M pyval :=
  engine ← extern (EvInstantiate (Builtin "StaticEngine")
                     [follow_redirects; timeout] [adaptor_kwarg self]);
  response_object ← extern (EvInvoke engine "put" [url; stealthy_headers] kwargs);
  mret response_object.

(** [Fetcher.delete], lines 51-62. *)
Definition delete (self : BaseFetcher.t)
    (url follow_redirects timeout stealthy_headers : pyval)
    (kwargs : list (string * pyval)) : M pyval :=
  engine ← extern (EvInstantiate (Builtin "StaticEngine")
                     [follow_redirects; timeout] [adaptor_kwarg self]);
  response_object ← extern (EvInvoke engine "delete" [url; stealthy_headers] kwargs);
  mret response_object.

End Fetcher.

(** *** [class StealthyFetcher(BaseFetcher)], lines 65-121 *)

Module StealthyFetcher.

Definition fetch (self : BaseFetcher.t)
    (url headless block_images disable_resources block_webrtc allow_webgl
     network_idle addons timeout page_action wait_selector humanize
     wait_selector_state google_search extra_headers proxy os_randomize : pyval)
    : M pyval :=
  engine ← extern (EvInstantiate (Builtin "CamoufoxEngine") []
    [ ("proxy", proxy);
      ("addons", addons);
      ("timeout", timeout);
      ("headless", headless);
      ("humanize", humanize);
      ("allow_webgl", allow_webgl);
      ("page_action", page_action);
      ("network_idle", network_idle);
      ("block_images", block_images);
      ("block_webrtc", block_webrtc);
      ("os_randomize", os_randomize);
      ("wait_selector", wait_selector);
      ("google_search", google_search);
      ("extra_headers", extra_headers);
      ("disable_resources", disable_resources);
      ("wait_selector_state", wait_selector_state);
      adaptor_kwarg self ]);
  extern (EvInvoke engine "fetch" [url] []).

End StealthyFetcher.

(** *** [class PlayWrightFetcher(BaseFetcher)], lines 124-192 *)

Module PlayWrightFetcher.

Definition fetch (self : BaseFetcher.t)
    (url headless disable_resources useragent network_idle timeout page_action
     wait_selector wait_selector_state hide_canvas disable_webgl extra_headers
     google_search proxy stealth cdp_url nstbrowser_mode nstbrowser_config : pyval)
    : M pyval :=
  engine ← extern (EvInstantiate (Builtin "PlaywrightEngine") []
    [ ("proxy", proxy);
      ("timeout", timeout);
      ("stealth", stealth);
      ("cdp_url", cdp_url);
      ("headless", headless);
      ("useragent", useragent);
      ("page_action", page_action);
      ("hide_canvas", hide_canvas);
      ("network_idle", network_idle);
      ("google_search", google_search);
      ("extra_headers", extra_headers);
      ("wait_selector", wait_selector);
      ("disable_webgl", disable_webgl);
      ("nstbrowser_mode", nstbrowser_mode);
      ("nstbrowser_config", nstbrowser_config);
      ("disable_resources", disable_resources);
      ("wait_selector_state", wait_selector_state);
      adaptor_kwarg self ]);
  extern (EvInvoke engine "fetch" [url] []).

End PlayWrightFetcher.

(** *** [class CustomFetcher(BaseFetcher)], lines 195-198 *)

Module CustomFetcher.

(** The call of line 197 names the keyword [adaptor_arguments] and unpacks
    the caller's keywords after it: when they hold that key too, Python
    raises a [TypeError] while it builds the call, after the check and before
    the engine is called. *)
Definition fetch (self : BaseFetcher.t) (url browser_engine : pyval)
    (kwargs : list (string * pyval)) : M pyval :=
  usable ← call_check_if_engine_usable browser_engine;
  if bool_decide ("adaptor_arguments" ∈ kwargs.*1) then
    raise (PyError "TypeError" [usable; PyStr "adaptor_arguments"])
  else
    engine ← extern (EvInstantiate (Supplied usable) [] (adaptor_kwarg self :: kwargs));
    extern (EvInvoke engine "fetch" [url] []).

End CustomFetcher.

(** ** Properties, as predicates *)

(** The events a computation adds to a history start with the direct
    instantiation of the engine class [cls], and none of them is a run of the
    capability check. *)
Definition dispatches_directly (cls : string) (m : M pyval) : Prop :=
  forall (w : world) (t0 : trace),
    exists args kwargs rest,
      snd (m w t0) = (t0 ++ EvInstantiate (Builtin cls) args kwargs :: rest)%list
      /\ checks (EvInstantiate (Builtin cls) args kwargs :: rest) = 0%nat
      /\ checks (snd (m w t0)) = checks t0.

Definition engine_well_formed : pyval :=
  PyObj 5 KClassObject
        [("fetch", PyObj 6 KFunction [] (Signature ["self"; "url"]) true)]
        (Signature ["adaptor_arguments"]) true.



(** A world in which every collaborator returns [None]. *)
Definition quiet_world : world := fun _ => Returns PyNone.

(** A fetcher configuration with the defaults of [BaseFetcher.__init__]. *)
Definition default_config : BaseFetcher.t :=
  BaseFetcher.mk
    (<["debug" := PyBool false]>
      (<["storage_args" := PyNone]>
        (<["storage" := PyObj 9 KClassObject [] (Signature []) true]>
          (<["auto_match" := PyBool true]>
            (<["keep_comments" := PyBool false]>
              (<["huge_tree" := PyBool true]> ∅)))))).

(** The claim on [automatch_domain] in the spec's words: a fetcher built with
    the value [v] ignores it, and logs a warning. *)
Definition ignored_with_warning (v : pyval) : Prop :=
  forall (huge_tree keep_comments auto_match storage storage_args debug : pyval)
         (w : world) (t0 : trace),
    exists self new,
      BaseFetcher.init huge_tree keep_comments auto_match storage storage_args debug v
        w t0 = (Returns self, t0 ++ new)
      /\ BaseFetcher.adaptor_arguments self !! "automatch_domain" = None
      /\ existsb is_warning new = true.

(** When validation fails, in the spec's words: the value is absent and
    absence is not an allowed kind, or the value is there, kinds are given,
    and its runtime kind matches none of them.  (Without kinds, any value
    that is there passes.) *)
Definition validation_fails (value : pyval) (allowed_kinds : option (list pytype)) : bool :=
  let kinds := default [] allowed_kinds in
  match value with
  | PyNone => negb (bool_decide (TNoneType ∈ kinds))
  | _ =>
      match kinds with
      | [] => false
      | _ => negb (existsb (isinstance value) kinds)
      end
  end.

(** Sample surroundings of the validator: identity by address on heap
    objects, and a module with two globals. *)
Definition same_object (a b : pyval) : bool :=
  match a, b with
  | PyObj i _ _ _ _, PyObj j _ _ _ _ => Pos.eqb i j
  | PyNone, PyNone => true
  | PyBool x, PyBool y => Bool.eqb x y
  | _, _ => false
  end.

Definition sample_globals : list (string * pyval) :=
  [ ("__name__", PyStr "scrapling.engines.toolbelt.custom");
    ("do_nothing", PyObj 20 KFunction [] (Signature ["page"]) true) ].

(** Invariants of the cache: no code is cached twice, every cached phrase is
    what [f] computes for its code, and the entries in front of the one of
    [code] are all for codes of the set [seen]. *)
Definition distinct_keys (st : Cache.state) : Prop :=
  NoDup (Cache.entries st).*1.

Definition consistent (f : Z -> string) (st : Cache.state) : Prop :=
  forall k v, (k, v) ∈ Cache.entries st -> v = f k.

Definition retained (code : Z) (seen : gset Z) (st : Cache.state) : Prop :=
  exists pre v post,
    Cache.entries st = pre ++ (code, v) :: post
    /\ forall k, k ∈ pre.*1 -> k ∈ seen.

(** ** Further properties, as predicates *)

(** The six arguments [BaseFetcher.__init__] always hands to the parser. *)
Definition six_arguments (huge_tree keep_comments auto_match storage storage_args
                          debug : pyval) : gmap string pyval :=
  <["debug" := debug]>
    (<["storage_args" := storage_args]>
      (<["storage" := storage]>
        (<["auto_match" := auto_match]>
          (<["keep_comments" := keep_comments]>
            (<["huge_tree" := huge_tree]> ∅))))).

(** When [BaseFetcher.__init__] takes an override: it is true in a condition
    and its type is [str] itself. *)
Definition override_accepted (v : pyval) : bool :=
  truthy v && bool_decide (type_of v = TStr).

(** A computation that, after the events [pre], instantiates [cls] and calls
    [method] on the instance, once: its outcome is the outcome of that call,
    and an exception of the instantiation leaves before any method is
    called. *)
Definition runs_engine (pre : trace) (cls : callee) (args : list pyval)
    (kwargs : list (string * pyval)) (method : string) (margs : list pyval)
    (mkwargs : list (string * pyval)) (m : M pyval) : Prop :=
  forall (w : world) (t0 : trace),
    m w t0
    = match w (t0 ++ pre ++ [EvInstantiate cls args kwargs]) with
      | Returns inst =>
          (w (t0 ++ pre ++ [EvInstantiate cls args kwargs;
                            EvInvoke inst method margs mkwargs]),
           t0 ++ pre ++ [EvInstantiate cls args kwargs;
                         EvInvoke inst method margs mkwargs])
      | Raises e => (Raises e, t0 ++ pre ++ [EvInstantiate cls args kwargs])
      end.

(** A world whose engines cannot be built. *)
Definition failing_world : world := fun _ => Raises (BackendError (PyStr "launch failed")).

(** Two instances of a class that inherits from [str]: one with text, one
    empty and so false in a condition. *)
Definition text_handler : pyval :=
  PyObj 30 (KInstance "TextHandler" ["str"]) [] NotCallable true.
Definition empty_text_handler : pyval :=
  PyObj 31 (KInstance "TextHandler" ["str"]) [] NotCallable false.

(** ** Theorems *)

(** *** The capability check *)

Lemma hasattr_getattr (v : pyval) (name : string) :
  hasattr v name = match getattr v name with Some _ => true | None => false end.
Proof. reflexivity. Qed.

Lemma check_missing (engine : pyval) :
  getattr engine "fetch" = None ->
  check_if_engine_usable engine
  = Raises (TypeError "Invalid engine class! Engine class must have the method 'fetch'").
Proof.
  intros Hget. unfold check_if_engine_usable.
  rewrite hasattr_getattr, Hget. reflexivity.
Qed.

Lemma check_present (engine fetch_function : pyval) :
  getattr engine "fetch" = Some fetch_function ->
  check_if_engine_usable engine
  = if callable fetch_function then
      match inspect_signature fetch_function with
      | Returns parameters =>
          if (0 <? length parameters)%nat then Returns engine
          else Raises (TypeError "Engine class must have a callable method 'fetch' with the first argument used for the url.")
      | Raises e => Raises e
      end
    else Raises (TypeError "Invalid engine class! Engine class must have a callable method 'fetch'").
Proof.
  intros Hget. unfold check_if_engine_usable.
  rewrite hasattr_getattr, Hget. reflexivity.
Qed.





(** *** The dispatchers *)

Lemma checks_app (t1 t2 : trace) : checks (t1 ++ t2) = (checks t1 + checks t2)%nat.
Proof. unfold checks. rewrite filter_app, length_app. reflexivity. Qed.

(** The shape shared by the built-in dispatchers: instantiate an engine
    class, then call one method of the instance. *)
Lemma instantiate_then_invoke (ev : event) (k : pyval -> event) (w : world) (t0 : trace) :
  (ev' ← extern ev; extern (k ev')) w t0
  = match w (t0 ++ [ev])%list with
    | Returns inst =>
        (w (t0 ++ [ev; k inst])%list, (t0 ++ [ev; k inst])%list)
    | Raises e => (Raises e, (t0 ++ [ev])%list)
    end.
Proof.
  unfold mbind, M_bind, bind, extern. simpl.
  destruct (w (t0 ++ [ev])%list) as [inst|e]; [|reflexivity].
  rewrite <- app_assoc. reflexivity.
Qed.

Lemma bind_assoc_ret (ev : event) (k : pyval -> event) (w : world) (t0 : trace) :
  (ev' ← extern ev; r ← extern (k ev'); mret r) w t0
  = (ev' ← extern ev; extern (k ev')) w t0.
Proof.
  unfold mbind, M_bind, bind, mret, M_ret, ret, extern. simpl.
  destruct (w (t0 ++ [ev])%list) as [inst|e]; [|reflexivity].
  destruct (w _) as [r|e]; reflexivity.
Qed.

Lemma checks_cons_other (ev : event) (t : trace) :
  is_check ev = false -> checks (ev :: t) = checks t.
Proof.
  intros Hev. unfold checks.
  rewrite filter_cons_False by (rewrite Hev; congruence). reflexivity.
Qed.

Lemma direct_dispatch (cls : string) (args : list pyval) (kwargs : list (string * pyval))
    (k : pyval -> event) :
  (forall inst, is_check (k inst) = false) ->
  dispatches_directly cls
    (engine ← extern (EvInstantiate (Builtin cls) args kwargs); extern (k engine)).
Proof.
  intros Hk w t0. rewrite instantiate_then_invoke.
  destruct (w _) as [inst|e]; cbn [snd].
  - exists args, kwargs, [k inst]. split; [reflexivity|].
    rewrite checks_app, !checks_cons_other by (reflexivity || apply Hk).
    split; [reflexivity|]. change (checks []) with 0%nat. lia.
  - exists args, kwargs, []. split; [reflexivity|].
    rewrite checks_app, !checks_cons_other by reflexivity.
    split; [reflexivity|]. change (checks []) with 0%nat. lia.
Qed.




(** C8.  The built-in dispatch paths never run the capability check: each
    of [Fetcher.get], [Fetcher.post], [Fetcher.put], [Fetcher.delete],
    [StealthyFetcher.fetch] and [PlayWrightFetcher.fetch] goes straight to
    the instantiation of its engine class and the call of its method, and
    adds no run of [check_if_engine_usable] to the history. *)
Theorem builtin_dispatch_never_checks (self : BaseFetcher.t) :
  (forall url follow_redirects timeout stealthy_headers kwargs,
     dispatches_directly "StaticEngine"
       (Fetcher.get self url follow_redirects timeout stealthy_headers kwargs)
     /\ dispatches_directly "StaticEngine"
       (Fetcher.post self url follow_redirects timeout stealthy_headers kwargs)
     /\ dispatches_directly "StaticEngine"
       (Fetcher.put self url follow_redirects timeout stealthy_headers kwargs)
     /\ dispatches_directly "StaticEngine"
       (Fetcher.delete self url follow_redirects timeout stealthy_headers kwargs))
  /\ (forall url headless block_images disable_resources block_webrtc allow_webgl
        network_idle addons timeout page_action wait_selector humanize
        wait_selector_state google_search extra_headers proxy os_randomize,
     dispatches_directly "CamoufoxEngine"
       (StealthyFetcher.fetch self url headless block_images disable_resources
          block_webrtc allow_webgl network_idle addons timeout page_action
          wait_selector humanize wait_selector_state google_search extra_headers
          proxy os_randomize))
  /\ (forall url headless disable_resources useragent network_idle timeout page_action
        wait_selector wait_selector_state hide_canvas disable_webgl extra_headers
        google_search proxy stealth cdp_url nstbrowser_mode nstbrowser_config,
     dispatches_directly "PlaywrightEngine"
       (PlayWrightFetcher.fetch self url headless disable_resources useragent
          network_idle timeout page_action wait_selector wait_selector_state
          hide_canvas disable_webgl extra_headers google_search proxy stealth
          cdp_url nstbrowser_mode nstbrowser_config)).
Proof.
  assert (Hstatic : forall method url follow_redirects timeout stealthy_headers kwargs,
    dispatches_directly "StaticEngine"
      (engine ← extern (EvInstantiate (Builtin "StaticEngine")
                          [follow_redirects; timeout] [adaptor_kwarg self]);
       response_object ← extern (EvInvoke engine method [url; stealthy_headers] kwargs);
       mret response_object)).
  { intros method url fr tm sh kwargs w t0.
    rewrite (bind_assoc_ret _ (fun engine => EvInvoke engine method [url; sh] kwargs)).
    revert w t0. apply direct_dispatch. reflexivity. }
  split; [|split].
  - intros. repeat split; apply Hstatic.
  - intros. unfold StealthyFetcher.fetch.
    apply (direct_dispatch _ _ _ (fun engine => EvInvoke engine "fetch" [url] [])).
    reflexivity.
  - intros. unfold PlayWrightFetcher.fetch.
    apply (direct_dispatch _ _ _ (fun engine => EvInvoke engine "fetch" [url] [])).
    reflexivity.
Qed.

(** *** The fetcher configuration *)

(** What [BaseFetcher.__init__] does, by the truth value and the type of
    [automatch_domain]. *)
Lemma BaseFetcher_init_run
    (huge_tree keep_comments auto_match storage storage_args debug automatch_domain : pyval)
    (w : world) (t0 : trace) :
  let base : gmap string pyval :=
    <["debug" := debug]>
      (<["storage_args" := storage_args]>
        (<["storage" := storage]>
          (<["auto_match" := auto_match]>
            (<["keep_comments" := keep_comments]>
              (<["huge_tree" := huge_tree]> ∅))))) in
  let setup := EvSetupLogging (if truthy debug then "debug" else "info") in
  BaseFetcher.init huge_tree keep_comments auto_match storage storage_args debug
    automatch_domain w t0
  = if truthy automatch_domain then
      if bool_decide (type_of automatch_domain = TStr) then
        (Returns (BaseFetcher.mk (<["automatch_domain" := automatch_domain]> base)),
         t0 ++ [setup])
      else
        (Returns (BaseFetcher.mk base),
         t0 ++ [setup; EvLog WARNING BaseFetcher.warning_text])
    else (Returns (BaseFetcher.mk base), t0 ++ [setup]).
Proof.
  intros base setup. unfold BaseFetcher.init.
  unfold mbind, M_bind, bind, mret, M_ret, ret, emit. cbn beta iota.
  destruct (truthy automatch_domain); [|reflexivity].
  destruct (bool_decide (type_of automatch_domain = TStr)); cbn; [reflexivity|].
  rewrite <- app_assoc. reflexivity.
Qed.

Lemma base_arguments_no_override (a b c d e f : pyval) :
  (<["debug" := f]>
    (<["storage_args" := e]>
      (<["storage" := d]>
        (<["auto_match" := c]>
          (<["keep_comments" := b]>
            (<["huge_tree" := a]> (∅ : gmap string pyval)))))))
  !! "automatch_domain" = None.
Proof.
  rewrite !lookup_insert_ne by (intros H; discriminate H).
  apply lookup_empty.
Qed.

(** C7, as the code has it.  A non-string [automatch_domain] is never stored
    in the adaptor arguments: the fetcher is built without an override.  The
    warning is logged exactly when the value is true in a condition; a
    non-string value that is false there (0, [False], an empty list) is
    taken as no value and dropped without one. *)
Theorem BaseFetcher_init_non_string_override
    (huge_tree keep_comments auto_match storage storage_args debug automatch_domain : pyval)
    (w : world) (t0 : trace) :
  type_of automatch_domain <> TStr ->
  exists self new,
    BaseFetcher.init huge_tree keep_comments auto_match storage storage_args debug
      automatch_domain w t0 = (Returns self, t0 ++ new)
    /\ BaseFetcher.adaptor_arguments self !! "automatch_domain" = None
    /\ existsb is_warning new = truthy automatch_domain
    /\ (truthy automatch_domain = true ->
        new = [EvSetupLogging (if truthy debug then "debug" else "info");
               EvLog WARNING BaseFetcher.warning_text]).
Proof.
  intros Hty. rewrite BaseFetcher_init_run.
  rewrite bool_decide_eq_false_2 by exact Hty.
  destruct (truthy automatch_domain); eexists; eexists;
    (split; [reflexivity|]); (split; [apply base_arguments_no_override|]);
    split; try reflexivity.
  intros H. discriminate H.
Qed.

Lemma BaseFetcher_init_non_string_override_witness :
  exists self new,
    BaseFetcher.init (PyBool true) (PyBool false) (PyBool true)
      (PyObj 9 KClassObject [] (Signature []) true) PyNone (PyBool false) (PyInt 42)
      quiet_world [] = (Returns self, [] ++ new)
    /\ BaseFetcher.adaptor_arguments self !! "automatch_domain" = None
    /\ existsb is_warning new = truthy (PyInt 42)
    /\ (truthy (PyInt 42) = true ->
        new = [EvSetupLogging (if truthy (PyBool false) then "debug" else "info");
               EvLog WARNING BaseFetcher.warning_text]).
Proof.
  apply (BaseFetcher_init_non_string_override (PyBool true) (PyBool false) (PyBool true)
           (PyObj 9 KClassObject [] (Signature []) true) PyNone (PyBool false) (PyInt 42)
           quiet_world []).
  simpl. discriminate.
Defined.

(** C7, as the spec states it, fails: the number 0 is not a string, and a
    fetcher built with it as [automatch_domain] logs no warning at all. *)
Lemma BaseFetcher_init_zero_override_silent :
  type_of (PyInt 0) <> TStr
  /\ BaseFetcher.init (PyBool true) (PyBool false) (PyBool true)
       (PyObj 9 KClassObject [] (Signature []) true) PyNone (PyBool false) (PyInt 0)
       quiet_world []
     = (Returns default_config, [EvSetupLogging "info"])
  /\ ~ ignored_with_warning (PyInt 0).
Proof.
  split; [discriminate|]. split; [reflexivity|].
  intros H.
  destruct (H (PyBool true) (PyBool false) (PyBool true)
              (PyObj 9 KClassObject [] (Signature []) true) PyNone (PyBool false) quiet_world [])
    as (self & new & Hrun & _ & Hwarn).
  rewrite BaseFetcher_init_run in Hrun. cbn in Hrun.
  inversion Hrun; subst. discriminate Hwarn.
Qed.

(** *** The unified result *)

Lemma Response_url_eq (url text : string) (body : list Byte.byte) (status : Z)
    (reason : string) (cookies headers request_headers : gmap string pyval)
    (encoding : string) (adaptor_arguments : gmap string pyval) :
  Response.url (Response.init url text body status reason cookies headers
                  request_headers encoding adaptor_arguments)
  = or_ (default PyNone (adaptor_arguments !! "automatch_domain")) (PyStr url).
Proof. reflexivity. Qed.

(** C3.  A response built for the request url [http://sub.example.org/x]
    with [automatch_domain = "example.com"] in the parsing configuration has
    the url [example.com]; built without the override, it has the request
    url. *)
Theorem Response_url_round_trip (text : string) (body : list Byte.byte) (status : Z)
    (reason : string) (cookies headers request_headers : gmap string pyval)
    (encoding : string) (adaptor_arguments : gmap string pyval) :
  (adaptor_arguments !! "automatch_domain" = Some (PyStr "example.com") ->
   Response.url (Response.init "http://sub.example.org/x" text body status reason
                   cookies headers request_headers encoding adaptor_arguments)
   = PyStr "example.com")
  /\ (adaptor_arguments !! "automatch_domain" = None ->
      Response.url (Response.init "http://sub.example.org/x" text body status reason
                      cookies headers request_headers encoding adaptor_arguments)
      = PyStr "http://sub.example.org/x").
Proof.
  split; intros H; rewrite Response_url_eq, H; reflexivity.
Qed.

Lemma Response_url_round_trip_witness :
  Response.url (Response.init "http://sub.example.org/x" "<html></html>" [] 200 "OK"
                  ∅ ∅ ∅ "utf-8"
                  (<["automatch_domain" := PyStr "example.com"]>
                     (BaseFetcher.adaptor_arguments default_config)))
  = PyStr "example.com"
  /\ Response.url (Response.init "http://sub.example.org/x" "<html></html>" [] 200 "OK"
                     ∅ ∅ ∅ "utf-8" (BaseFetcher.adaptor_arguments default_config))
     = PyStr "http://sub.example.org/x".
Proof.
  split.
  - apply (proj1 (Response_url_round_trip "<html></html>" [] 200 "OK" ∅ ∅ ∅ "utf-8"
                    (<["automatch_domain" := PyStr "example.com"]>
                       (BaseFetcher.adaptor_arguments default_config)))).
    apply lookup_insert_eq.
  - apply (proj2 (Response_url_round_trip "<html></html>" [] 200 "OK" ∅ ∅ ∅ "utf-8"
                    (BaseFetcher.adaptor_arguments default_config))).
    apply base_arguments_no_override.
Defined.

(** C9.  An override that is present in the parsing configuration but false
    in a condition (the empty string, [None], 0, ...) does not replace the
    url: the response has the request url.  The key alone changes nothing. *)
Theorem Response_url_falsy_override (url text : string) (body : list Byte.byte)
    (status : Z) (reason : string) (cookies headers request_headers : gmap string pyval)
    (encoding : string) (adaptor_arguments : gmap string pyval) (override : pyval) :
  adaptor_arguments !! "automatch_domain" = Some override ->
  truthy override = false ->
  Response.url (Response.init url text body status reason cookies headers
                  request_headers encoding adaptor_arguments)
  = PyStr url.
Proof.
  intros Hkey Hfalse. rewrite Response_url_eq, Hkey. unfold or_. simpl.
  rewrite Hfalse. reflexivity.
Qed.

Lemma Response_url_falsy_override_witness :
  Response.url (Response.init "http://sub.example.org/x" "<html></html>" [] 200 "OK"
                  ∅ ∅ ∅ "utf-8"
                  (<["automatch_domain" := PyStr EmptyString]>
                     (BaseFetcher.adaptor_arguments default_config)))
  = PyStr "http://sub.example.org/x".
Proof.
  apply (Response_url_falsy_override "http://sub.example.org/x" "<html></html>" [] 200
           "OK" ∅ ∅ ∅ "utf-8" _ (PyStr EmptyString)).
  - apply lookup_insert_eq.
  - reflexivity.
Defined.

(** *** The type validator *)

Section TypeValidatorFacts.

Context (is_ : pyval -> pyval -> bool) (globals : list (string * pyval)).

Local Abbreviation check := (check_type_validity is_ globals).
Local Abbreviation name_of := (var_name_of is_ globals).

(** The four ways through [check_type_validity]. *)
Lemma check_none_allowed (kinds : option (list pytype)) (d : pyval) (critical : bool)
    (param_name : option string) (w : world) (t0 : trace) :
  TNoneType ∈ default [] kinds ->
  check PyNone kinds d critical param_name w t0 = (Returns PyNone, t0).
Proof.
  intros Hin. unfold check_type_validity. cbn [is_none].
  rewrite bool_decide_eq_true_2 by exact Hin. reflexivity.
Qed.

Lemma check_none_refused (kinds : option (list pytype)) (d : pyval) (critical : bool)
    (param_name : option string) (w : world) (t0 : trace) :
  TNoneType ∉ default [] kinds ->
  check PyNone kinds d critical param_name w t0
  = if critical then (Raises (TypeError (none_msg (name_of param_name PyNone))), t0)
    else (Returns d,
          t0 ++ [EvLog ERROR ("[Ignored] " +:+ none_msg (name_of param_name PyNone))]).
Proof.
  intros Hin. unfold check_type_validity. cbn [is_none].
  rewrite bool_decide_eq_false_2 by exact Hin.
  destruct critical; reflexivity.
Qed.

Lemma check_value (v : pyval) (kinds : option (list pytype)) (d : pyval)
    (critical : bool) (param_name : option string) (w : world) (t0 : trace) :
  is_none v = false ->
  check v kinds d critical param_name w t0
  = match default [] kinds with
    | [] => (Returns v, t0)
    | _ =>
        if existsb (isinstance v) (default [] kinds) then (Returns v, t0)
        else if critical then
          (Raises (TypeError (type_msg (name_of param_name v)
                                (map type_name (default [] kinds)))), t0)
        else
          (Returns d,
           t0 ++ [EvLog ERROR ("[Ignored] " +:+
                    type_msg (name_of param_name v) (map type_name (default [] kinds)))])
    end.
Proof.
  intros Hv. unfold check_type_validity. rewrite Hv.
  destruct (default [] kinds) as [|k ks]; [reflexivity|].
  destruct (existsb (isinstance v) (k :: ks)); [reflexivity|].
  destruct critical; reflexivity.
Qed.

Lemma validation_fails_none (kinds : option (list pytype)) :
  validation_fails PyNone kinds = negb (bool_decide (TNoneType ∈ default [] kinds)).
Proof. reflexivity. Qed.

Lemma validation_fails_value (v : pyval) (kinds : option (list pytype)) :
  is_none v = false ->
  validation_fails v kinds
  = match default [] kinds with
    | [] => false
    | _ => negb (existsb (isinstance v) (default [] kinds))
    end.
Proof. destruct v; intros H; try discriminate H; reflexivity. Qed.

(** C4.  With [critical=False] the validator never raises: whatever the
    value, the allowed kinds and the default, it returns; and what it
    returns when validation fails is the default it was given (the value
    itself when validation passes). *)
Theorem check_type_validity_non_critical (variable : pyval)
    (valid_types : option (list pytype)) (default_value : pyval)
    (param_name : option string) (w : world) (t0 : trace) :
  exists new,
    check variable valid_types default_value false param_name w t0
    = (Returns (if validation_fails variable valid_types then default_value
                else variable),
       t0 ++ new).
Proof.
  destruct (is_none variable) eqn:Hnone.
  - destruct variable; try discriminate Hnone.
    rewrite validation_fails_none.
    destruct (decide (TNoneType ∈ default [] valid_types)) as [Hin|Hin].
    + rewrite check_none_allowed, bool_decide_eq_true_2 by exact Hin.
      exists []. rewrite app_nil_r. reflexivity.
    + rewrite check_none_refused, bool_decide_eq_false_2 by exact Hin.
      eexists. reflexivity.
  - rewrite check_value, validation_fails_value by exact Hnone.
    destruct (default [] valid_types) as [|k ks].
    + exists []. rewrite app_nil_r. reflexivity.
    + destruct (existsb (isinstance variable) (k :: ks)); cbn [negb].
      * exists []. rewrite app_nil_r. reflexivity.
      * eexists. reflexivity.
Qed.

(** C5.  With [critical=True] the validator raises a [TypeError] (the
    spec's ConfigurationError) whenever validation fails, and logs nothing;
    for a value of the wrong kind the message names the argument and lists
    the names of all allowed kinds, joined by [" or "].  When validation
    passes it returns the value it was given. *)
Theorem check_type_validity_critical (variable : pyval)
    (valid_types : option (list pytype)) (default_value : pyval)
    (param_name : option string) (w : world) (t0 : trace) :
  check variable valid_types default_value true param_name w t0
  = (if validation_fails variable valid_types then
       Raises (TypeError
         (if is_none variable then
            "Argument " +:+ dquote +:+ name_of param_name variable +:+ dquote
            +:+ " cannot be None"
          else
            "Argument " +:+ dquote +:+ name_of param_name variable +:+ dquote
            +:+ " must be of type "
            +:+ String.concat " or " (map type_name (default [] valid_types))))
     else Returns variable,
     t0).
Proof.
  destruct (is_none variable) eqn:Hnone.
  - destruct variable; try discriminate Hnone.
    rewrite validation_fails_none.
    destruct (decide (TNoneType ∈ default [] valid_types)) as [Hin|Hin].
    + rewrite check_none_allowed, bool_decide_eq_true_2 by exact Hin. reflexivity.
    + rewrite check_none_refused, bool_decide_eq_false_2 by exact Hin. reflexivity.
  - rewrite check_value, validation_fails_value by exact Hnone.
    destruct (default [] valid_types) as [|k ks]; [reflexivity|].
    destruct (existsb (isinstance variable) (k :: ks)); reflexivity.
Qed.

(** C10.  An absent value fails validation when the list of allowed kinds is
    empty or absent: with [critical=False] the default is returned (and the
    refusal logged), with [critical=True] a [TypeError] is raised.  The rule
    that an empty list of kinds lets any value pass holds for the values that
    are there only: absence is tested first. *)
Theorem check_type_validity_none_without_kinds (default_value : pyval)
    (param_name : option string) (w : world) (t0 : trace) :
  let refusal := none_msg (name_of param_name PyNone) in
  check PyNone None default_value false param_name w t0
  = (Returns default_value, t0 ++ [EvLog ERROR ("[Ignored] " +:+ refusal)])
  /\ check PyNone (Some []) default_value false param_name w t0
     = (Returns default_value, t0 ++ [EvLog ERROR ("[Ignored] " +:+ refusal)])
  /\ check PyNone None default_value true param_name w t0
     = (Raises (TypeError refusal), t0)
  /\ check PyNone (Some []) default_value true param_name w t0
     = (Raises (TypeError refusal), t0)
  /\ (forall v critical, is_none v = false ->
      check v None default_value critical param_name w t0 = (Returns v, t0)
      /\ check v (Some []) default_value critical param_name w t0 = (Returns v, t0)).
Proof.
  intros refusal.
  repeat split;
    try (rewrite check_none_refused by (cbn; apply not_elem_of_nil); reflexivity);
    rewrite check_value by assumption; reflexivity.
Qed.

End TypeValidatorFacts.

Lemma check_type_validity_none_without_kinds_witness :
  check_type_validity same_object sample_globals (PyInt 5) (Some []) (PyInt 10) true
    (Some "timeout") quiet_world []
  = (Returns (PyInt 5), []).
Proof.
  apply (proj1 (proj2 (proj2 (proj2 (proj2
    (check_type_validity_none_without_kinds same_object sample_globals (PyInt 10)
       (Some "timeout") quiet_world []))))
    (PyInt 5) true eq_refl)).
Defined.

(** The validator at work: a list where an int or a string is expected. *)
Example check_type_validity_wrong_kind :
  check_type_validity same_object sample_globals (PyList []) (Some [TInt; TStr])
    (PyInt 30) true (Some "timeout") quiet_world []
  = (Raises (TypeError ("Argument " +:+ dquote +:+ "timeout" +:+ dquote
                        +:+ " must be of type int or str")), []).
Proof. reflexivity. Qed.

Example check_type_validity_bool_is_int :
  check_type_validity same_object sample_globals (PyBool true) (Some [TInt])
    (PyInt 30) true None quiet_world []
  = (Returns (PyBool true), []).
Proof. reflexivity. Qed.

Example get_variable_name_local :
  get_variable_name same_object sample_globals PyNone = Some "var".
Proof. reflexivity. Qed.

(** *** The cache and the status phrases *)

Lemma find_None (key : Z) (l : list (Z * string)) :
  Cache.find key l = None <-> key ∉ l.*1.
Proof.
  induction l as [|[k v] l IH]; simpl.
  - split; [intros _; apply not_elem_of_nil|reflexivity].
  - destruct (Z.eqb_spec k key) as [->|Hne].
    + split; [discriminate|]. intros H. exfalso. apply H. left.
    + rewrite IH, not_elem_of_cons. intuition congruence.
Qed.

Lemma find_Some (key : Z) (l : list (Z * string)) (v : string) :
  Cache.find key l = Some v -> (key, v) ∈ l.
Proof.
  induction l as [|[k v'] l IH]; simpl; [discriminate|].
  destruct (Z.eqb_spec k key) as [->|Hne].
  - intros [= ->]. left.
  - intros H. right. auto.
Qed.

Lemma find_app_fresh (key : Z) (pre post : list (Z * string)) (v : string) :
  key ∉ pre.*1 -> Cache.find key (pre ++ (key, v) :: post) = Some v.
Proof.
  induction pre as [|[k v'] pre IH]; simpl; intros Hfresh.
  - rewrite Z.eqb_refl. reflexivity.
  - apply not_elem_of_cons in Hfresh as [Hne Hfresh].
    destruct (Z.eqb_spec k key) as [->|_]; [congruence|]. auto.
Qed.

Lemma drop_elem (key : Z) (l : list (Z * string)) (kv : Z * string) :
  kv ∈ Cache.drop key l -> kv ∈ l /\ kv.1 <> key.
Proof.
  induction l as [|[k v] l IH]; simpl; [intros H; inversion H|].
  destruct (Z.eqb_spec k key) as [->|Hne].
  - intros H. destruct (IH H). split; [right|]; assumption.
  - rewrite elem_of_cons. intros [->|H]; [split; [left|exact Hne]|].
    destruct (IH H). split; [right|]; assumption.
Qed.

Lemma drop_keys (key x : Z) (l : list (Z * string)) :
  x ∈ (Cache.drop key l).*1 -> x ∈ l.*1 /\ x <> key.
Proof.
  rewrite !list_elem_of_fmap. intros ([k v] & -> & Hin).
  apply drop_elem in Hin as [Hin Hne]. split; [exists (k, v)|]; auto.
Qed.

Lemma drop_distinct (key : Z) (l : list (Z * string)) :
  NoDup l.*1 -> NoDup (Cache.drop key l).*1.
Proof.
  induction l as [|[k v] l IH]; simpl; [auto|].
  rewrite NoDup_cons. intros [Hk Hl].
  destruct (Z.eqb_spec k key) as [->|Hne]; [auto|].
  simpl. rewrite NoDup_cons. split; [|auto].
  intros Hin. apply drop_keys in Hin as [Hin _]. auto.
Qed.

Lemma drop_app (key : Z) (l1 l2 : list (Z * string)) :
  Cache.drop key (l1 ++ l2) = Cache.drop key l1 ++ Cache.drop key l2.
Proof.
  induction l1 as [|[k v] l1 IH]; simpl; [reflexivity|].
  destruct (Z.eqb k key); simpl; rewrite IH; reflexivity.
Qed.

Lemma length_le_size (l : list Z) (seen : gset Z) :
  NoDup l -> (forall x, x ∈ l -> x ∈ seen) -> (length l <= size seen)%nat.
Proof.
  intros Hnd Hsub. rewrite <- (size_list_to_set (C:=gset Z) l Hnd).
  apply subseteq_size. intros x Hx. apply elem_of_list_to_set in Hx. auto.
Qed.

Section CacheFacts.

(** The decorated function [f] computes [g] and counts its own runs. *)
Context (maxsize : nat) (f : Z -> nat -> string * nat) (g : Z -> string).
Hypothesis f_counts : forall key n, f key n = (g key, S n).

(** A call leaves the cache well formed and within its capacity. *)
Lemma call_distinct (key : Z) (st : Cache.state) :
  distinct_keys st -> distinct_keys (snd (Cache.call maxsize f key st)).
Proof using f_counts.
  unfold distinct_keys, Cache.call. intros Hnd.
  destruct (Cache.find key (Cache.entries st)) as [v|] eqn:Hfind; simpl.
  - rewrite NoDup_cons. split; [|apply drop_distinct; exact Hnd].
    intros Hin. apply drop_keys in Hin as [_ Hne]. congruence.
  - rewrite f_counts. simpl.
    rewrite fmap_take. eapply sublist_NoDup; [|apply sublist_take].
    simpl. rewrite NoDup_cons. split; [|exact Hnd].
    apply find_None. exact Hfind.
Qed.

Lemma call_consistent (key : Z) (st : Cache.state) :
  consistent g st -> consistent g (snd (Cache.call maxsize f key st)).
Proof using f_counts.
  unfold consistent, Cache.call. intros Hc k v.
  destruct (Cache.find key (Cache.entries st)) as [v'|] eqn:Hfind; simpl.
  - rewrite elem_of_cons. intros [[= -> ->]|Hin].
    + apply Hc, find_Some, Hfind.
    + apply drop_elem in Hin as [Hin _]. auto.
  - rewrite f_counts. simpl.
    intros Hin. apply elem_of_take in Hin as (i & Hin & _).
    apply list_elem_of_lookup_2 in Hin.
    apply elem_of_cons in Hin as [[= -> ->]|Hin]; auto.
Qed.

Lemma call_value (key : Z) (st : Cache.state) :
  consistent g st -> fst (Cache.call maxsize f key st) = g key.
Proof using f_counts.
  unfold Cache.call. intros Hc.
  destruct (Cache.find key (Cache.entries st)) as [v|] eqn:Hfind; simpl.
  - apply Hc, find_Some, Hfind.
  - rewrite f_counts. reflexivity.
Qed.

Lemma call_bounded (key : Z) (st : Cache.state) :
  (length (Cache.entries st) <= maxsize)%nat ->
  (length (Cache.entries (snd (Cache.call maxsize f key st))) <= maxsize)%nat.
Proof using f_counts.
  unfold Cache.call. intros Hlen.
  destruct (Cache.find key (Cache.entries st)) as [v|] eqn:Hfind; simpl.
  - apply find_Some in Hfind.
    apply list_elem_of_split in Hfind as (l1 & l2 & Heq).
    assert (Hdrop : (length (Cache.drop key (Cache.entries st))
                     < length (Cache.entries st))%nat).
    { rewrite Heq, drop_app. simpl. rewrite Z.eqb_refl, !length_app. simpl.
      assert (Hle : forall l, (length (Cache.drop key l) <= length l)%nat).
      { intros l. induction l as [|[k' v'] l IH]; simpl; [lia|].
        destruct (Z.eqb k' key); simpl; lia. }
      pose proof (Hle l1). pose proof (Hle l2). lia. }
    lia.
  - rewrite f_counts. simpl. rewrite length_take. lia.
Qed.

(** A hit runs nothing: the count of runs stays. *)
Lemma call_hit (key : Z) (st : Cache.state) (v : string) :
  Cache.find key (Cache.entries st) = Some v ->
  fst (Cache.call maxsize f key st) = v
  /\ Cache.runs (snd (Cache.call maxsize f key st)) = Cache.runs st.
Proof. unfold Cache.call. intros ->. split; reflexivity. Qed.

(** A miss runs the function, once. *)
Lemma call_miss (key : Z) (st : Cache.state) :
  Cache.find key (Cache.entries st) = None ->
  fst (Cache.call maxsize f key st) = g key
  /\ Cache.runs (snd (Cache.call maxsize f key st)) = S (Cache.runs st).
Proof using f_counts.
  unfold Cache.call. intros ->. rewrite f_counts. split; reflexivity.
Qed.

(** What a call answers is in the cache after it. *)
Lemma call_stored (key : Z) (st : Cache.state) :
  (0 < maxsize)%nat ->
  Cache.find key (Cache.entries (snd (Cache.call maxsize f key st)))
  = Some (fst (Cache.call maxsize f key st)).
Proof using f_counts.
  intros Hpos. unfold Cache.call.
  destruct (Cache.find key (Cache.entries st)) as [v|]; simpl.
  - rewrite Z.eqb_refl. reflexivity.
  - rewrite f_counts. destruct maxsize as [|n]; [lia|].
    simpl. rewrite Z.eqb_refl. reflexivity.
Qed.

(** The codes in the cache were all looked up. *)
Lemma call_keys (key k : Z) (st : Cache.state) :
  k ∈ (Cache.entries (snd (Cache.call maxsize f key st))).*1 ->
  k = key \/ k ∈ (Cache.entries st).*1.
Proof using f_counts.
  unfold Cache.call.
  destruct (Cache.find key (Cache.entries st)) as [v|]; simpl.
  - rewrite elem_of_cons. intros [->|Hin]; [left; reflexivity|].
    apply drop_keys in Hin as [Hin _]. right. exact Hin.
  - rewrite f_counts. simpl. rewrite fmap_take. intros Hin.
    apply elem_of_take in Hin as (i & Hin & _).
    apply list_elem_of_lookup_2 in Hin. simpl in Hin.
    apply elem_of_cons in Hin as [->|Hin]; auto.
Qed.

(** After a call on [code], its entry is the first of the cache. *)
Lemma call_front (code : Z) (st : Cache.state) :
  (0 < maxsize)%nat -> retained code ∅ (snd (Cache.call maxsize f code st)).
Proof using f_counts.
  intros Hpos. unfold retained, Cache.call.
  destruct (Cache.find code (Cache.entries st)) as [v|]; simpl.
  - exists [], v, (Cache.drop code (Cache.entries st)).
    split; [reflexivity|]. intros k Hk. inversion Hk.
  - rewrite f_counts. destruct maxsize as [|n]; [lia|].
    exists [], (g code), (take n (Cache.entries st)).
    split; [reflexivity|]. intros k Hk. inversion Hk.
Qed.

(** A call on another code moves the entry of [code] back by one place at
    most, and keeps it while the codes in front of it are fewer than the
    capacity. *)
Lemma call_retains (code key : Z) (seen : gset Z) (st : Cache.state) :
  distinct_keys st -> retained code seen st -> key <> code ->
  (size (seen ∪ {[key]}) < maxsize)%nat ->
  retained code (seen ∪ {[key]}) (snd (Cache.call maxsize f key st)).
Proof using f_counts.
  unfold distinct_keys. intros Hnd (pre & v & post & Heq & Hpre) Hne Hsize.
  unfold retained, Cache.call.
  destruct (Cache.find key (Cache.entries st)) as [v'|] eqn:Hfind; simpl.
  - exists ((key, v') :: Cache.drop key pre), v, (Cache.drop key post).
    split.
    + rewrite Heq, drop_app. simpl.
      destruct (Z.eqb_spec code key) as [Heq'|_]; [congruence|]. reflexivity.
    + intros k. simpl. rewrite elem_of_cons. intros [->|Hk]; [set_solver|].
      apply drop_keys in Hk as [Hk _]. apply Hpre in Hk. set_solver.
  - rewrite f_counts. cbn [snd Cache.entries].
    apply find_None in Hfind.
    assert (Hlen : (length ((key, g key) :: pre) <= size (seen ∪ {[key]}))%nat).
    { rewrite <- (length_fmap fst). apply length_le_size.
      - rewrite Heq, fmap_app in Hnd, Hfind.
        apply NoDup_app in Hnd as (Hnd & _ & _).
        simpl. rewrite NoDup_cons. split; [|exact Hnd].
        intros Hin. apply Hfind. apply elem_of_app. left. exact Hin.
      - intros x. simpl. rewrite elem_of_cons. intros [->|Hx]; [set_solver|].
        apply Hpre in Hx. set_solver. }
    exists ((key, g key) :: pre), v,
      (take (maxsize - S (length ((key, g key) :: pre))) post).
    split.
    + rewrite Heq.
      change ((key, g key) :: pre ++ (code, v) :: post)
        with (((key, g key) :: pre) ++ (code, v) :: post).
      rewrite take_app, take_ge by lia.
      destruct (maxsize - length ((key, g key) :: pre))%nat as [|n] eqn:Hn; [lia|].
      simpl. repeat f_equal. simpl in Hn. lia.
    + intros k. simpl. rewrite elem_of_cons. intros [->|Hk]; [set_solver|].
      apply Hpre in Hk. set_solver.
Qed.

End CacheFacts.

(** An entry that is retained is found. *)
Lemma retained_find (code : Z) (seen : gset Z) (st : Cache.state) :
  distinct_keys st -> retained code seen st ->
  exists v, Cache.find code (Cache.entries st) = Some v.
Proof.
  unfold distinct_keys. intros Hnd (pre & v & post & Heq & _).
  exists v. rewrite Heq. apply find_app_fresh.
  rewrite Heq, fmap_app in Hnd. apply NoDup_app in Hnd as (_ & Hdisj & _).
  intros Hin. apply (Hdisj _ Hin). simpl. left.
Qed.

(** The reason phrases. *)

Lemma get_body_counts (key : Z) (n : nat) :
  StatusText.get_body_counted key n = (StatusText.get_body key, S n).
Proof. reflexivity. Qed.

Lemma phrase_table_distinct : NoDup StatusText.phrase_table.*1.
Proof. apply (bool_decide_unpack _). vm_compute. exact I. Qed.

Lemma get_body_known (code : Z) (phrase : string) :
  (code, phrase) ∈ StatusText.phrase_table -> StatusText.get_body code = phrase.
Proof.
  intros Hin. unfold StatusText.get_body, StatusText._phrases.
  rewrite (elem_of_list_to_map_1 _ _ _ phrase_table_distinct Hin). reflexivity.
Qed.

Lemma get_body_unknown (code : Z) :
  code ∉ StatusText.phrase_table.*1 ->
  StatusText.get_body code = "Unknown Status Code".
Proof.
  intros Hin. unfold StatusText.get_body, StatusText._phrases.
  rewrite (not_elem_of_list_to_map_1 _ _ Hin). reflexivity.
Qed.

(** What [get] answers is what its body computes. *)
Lemma get_value (code : Z) (st : Cache.state) :
  consistent StatusText.get_body st ->
  fst (StatusText.get code st) = StatusText.get_body code.
Proof. apply (call_value 128 _ _ get_body_counts). Qed.

(** The invariants hold in every state the cache reaches. *)
Lemma lookups_invariant (codes : list Z) (st : Cache.state) :
  distinct_keys st -> consistent StatusText.get_body st ->
  (length (Cache.entries st) <= 128)%nat ->
  distinct_keys (StatusText.lookups codes st)
  /\ consistent StatusText.get_body (StatusText.lookups codes st)
  /\ (length (Cache.entries (StatusText.lookups codes st)) <= 128)%nat.
Proof.
  revert st. induction codes as [|code codes IH]; intros st Hd Hc Hl; simpl.
  - auto.
  - apply IH; unfold StatusText.get.
    + apply (call_distinct 128 _ _ get_body_counts), Hd.
    + apply (call_consistent 128 _ _ get_body_counts), Hc.
    + apply (call_bounded 128 _ _ get_body_counts), Hl.
Qed.

Lemma empty_invariant :
  distinct_keys Cache.empty /\ consistent StatusText.get_body Cache.empty
  /\ (length (Cache.entries Cache.empty) <= 128)%nat.
Proof.
  split; [apply NoDup_nil_2|]. split; [|simpl; lia].
  intros k v Hin. inversion Hin.
Qed.

Lemma lookups_keys (codes : list Z) (k : Z) :
  forall st : Cache.state,
    k ∈ (Cache.entries (StatusText.lookups codes st)).*1 ->
    k ∈ codes \/ k ∈ (Cache.entries st).*1.
Proof.
  induction codes as [|code codes IH]; intros st Hin; simpl in Hin.
  - right. exact Hin.
  - apply IH in Hin as [Hin|Hin]; [left; right; exact Hin|].
    apply (call_keys 128 _ _ get_body_counts) in Hin as [->|Hin];
      [left; left|right; exact Hin].
Qed.

Lemma lookups_retains (code : Z) (others : list Z) :
  forall (st : Cache.state) (seen : gset Z),
    distinct_keys st -> retained code seen st ->
    (size (seen ∪ (list_to_set others ∖ {[code]})) < 128)%nat ->
    distinct_keys (StatusText.lookups others st)
    /\ exists seen', retained code seen' (StatusText.lookups others st).
Proof.
  induction others as [|key others IH]; intros st seen Hd Hr Hsize; simpl.
  - split; [exact Hd|]. exists seen. exact Hr.
  - destruct (decide (key = code)) as [->|Hne].
    + apply (IH _ ∅).
      * apply (call_distinct 128 _ _ get_body_counts), Hd.
      * apply (call_front 128 _ _ get_body_counts). lia.
      * eapply Nat.le_lt_trans; [|exact Hsize].
        apply subseteq_size. set_solver.
    + apply (IH _ (seen ∪ {[key]})).
      * apply (call_distinct 128 _ _ get_body_counts), Hd.
      * apply (call_retains 128 _ _ get_body_counts); [exact Hd|exact Hr|exact Hne|].
        eapply Nat.le_lt_trans; [|exact Hsize].
        apply subseteq_size. set_solver.
      * eapply Nat.le_lt_trans; [|exact Hsize].
        apply subseteq_size. set_solver.
Qed.

(** C6.  In every state the cache reaches, [StatusText.get] returns the
    phrase of the table for a code of the table, and [Unknown Status Code]
    for any other integer.  The cache never holds more than 128 entries.
    The first lookup of a code runs the body of [get], once, and what it
    answers is stored under the code.  A later lookup of the same code
    returns the same phrase; and while fewer than 128 other distinct codes
    were looked up in between, it is answered from the cache: the body of
    [get] does not run again. *)
Theorem StatusText_get_memoized (history others : list Z) (code : Z) :
  let st0 := StatusText.lookups history Cache.empty in
  let st1 := StatusText.lookups others (snd (StatusText.get code st0)) in
  (forall phrase, (code, phrase) ∈ StatusText.phrase_table ->
     fst (StatusText.get code st0) = phrase)
  /\ (code ∉ StatusText.phrase_table.*1 ->
      fst (StatusText.get code st0) = "Unknown Status Code")
  /\ (length (Cache.entries st1) <= 128)%nat
  /\ fst (StatusText.get code st1) = fst (StatusText.get code st0)
  /\ (code ∉ history ->
      Cache.runs (snd (StatusText.get code st0)) = S (Cache.runs st0))
  /\ Cache.find code (Cache.entries (snd (StatusText.get code st0)))
     = Some (fst (StatusText.get code st0))
  /\ ((size (list_to_set others ∖ {[code]} : gset Z) < 128)%nat ->
      Cache.runs (snd (StatusText.get code st1)) = Cache.runs st1).
Proof.
  intros st0 st1.
  destruct empty_invariant as (Hd0 & Hc0 & Hl0).
  destruct (lookups_invariant history _ Hd0 Hc0 Hl0) as (Hd & Hc & Hl).
  fold st0 in Hd, Hc, Hl.
  assert (Hval0 : fst (StatusText.get code st0) = StatusText.get_body code)
    by (apply get_value, Hc).
  assert (Hd' : distinct_keys (snd (StatusText.get code st0)))
    by (apply (call_distinct 128 _ _ get_body_counts), Hd).
  destruct (lookups_invariant others (snd (StatusText.get code st0)))
    as (Hd1 & Hc1 & Hl1);
    [exact Hd'|apply (call_consistent 128 _ _ get_body_counts), Hc
    |apply (call_bounded 128 _ _ get_body_counts), Hl|].
  fold st1 in Hd1, Hc1, Hl1.
  split; [intros phrase Hin; rewrite Hval0; apply get_body_known, Hin|].
  split; [intros Hin; rewrite Hval0; apply get_body_unknown, Hin|].
  split; [exact Hl1|].
  split; [rewrite Hval0; apply get_value, Hc1|].
  split.
  { intros Hfresh. apply (call_miss 128 _ _ get_body_counts).
    apply find_None. intros Hin.
    apply lookups_keys in Hin as [Hin|Hin]; [exact (Hfresh Hin)|].
    inversion Hin. }
  split; [apply (call_stored 128 _ _ get_body_counts); lia|].
  intros Hsize.
  destruct (lookups_retains code others (snd (StatusText.get code st0)) ∅)
    as (_ & seen' & Hr);
    [exact Hd'|apply (call_front 128 _ _ get_body_counts); lia| |].
  { eapply Nat.le_lt_trans; [|exact Hsize]. apply subseteq_size. set_solver. }
  fold st1 in Hr.
  destruct (retained_find code seen' st1 Hd1 Hr) as [v Hfind].
  apply (call_hit 128 StatusText.get_body_counted code st1 v Hfind).
Qed.

Lemma StatusText_get_memoized_witness :
  fst (StatusText.get 404 (StatusText.lookups [200; 301] Cache.empty)) = "Not Found"
  /\ fst (StatusText.get 299 (StatusText.lookups [200; 301] Cache.empty))
     = "Unknown Status Code"
  /\ Cache.runs (snd (StatusText.get 404 (StatusText.lookups [200; 301] Cache.empty)))
     = S (Cache.runs (StatusText.lookups [200; 301] Cache.empty))
  /\ Cache.runs
       (snd (StatusText.get 404
               (StatusText.lookups [500; 200; 500]
                  (snd (StatusText.get 404 (StatusText.lookups [200; 301] Cache.empty))))))
     = Cache.runs
         (StatusText.lookups [500; 200; 500]
            (snd (StatusText.get 404 (StatusText.lookups [200; 301] Cache.empty)))).
Proof.
  split; [|split; [|split]].
  - apply (proj1 (StatusText_get_memoized [200; 301] [] 404) "Not Found").
    apply (bool_decide_unpack _). vm_compute. exact I.
  - apply (proj1 (proj2 (StatusText_get_memoized [200; 301] [] 299))).
    apply (bool_decide_unpack _). vm_compute. exact I.
  - apply (proj1 (proj2 (proj2 (proj2 (proj2
             (StatusText_get_memoized [200; 301] [] 404)))))).
    apply (bool_decide_unpack _). vm_compute. exact I.
  - apply (proj2 (proj2 (proj2 (proj2 (proj2 (proj2
             (StatusText_get_memoized [200; 301] [500; 200; 500] 404))))))).
    apply (bool_decide_unpack _). vm_compute. exact I.
Defined.

(** The bound is the capacity: once 128 other codes were looked up, the
    entry of the first one is gone, and its next lookup runs the body of
    [get] again, to the same phrase. *)
Example StatusText_get_beyond_capacity :
  let others := map Z.of_nat (seq 1000 128) in
  let st1 := StatusText.lookups others (snd (StatusText.get 404 Cache.empty)) in
  fst (StatusText.get 404 st1) = "Not Found"
  /\ Cache.runs (snd (StatusText.get 404 st1)) = S (Cache.runs st1)
  /\ length (Cache.entries st1) = 128%nat.
Proof. vm_compute. repeat split. Qed.

(** ** Further properties of the code *)

(** *** The fetcher configuration, end to end *)

Lemma six_arguments_lookup (a b c d e f : pyval) :
  let m := six_arguments a b c d e f in
  m !! "huge_tree" = Some a /\ m !! "keep_comments" = Some b
  /\ m !! "auto_match" = Some c /\ m !! "storage" = Some d
  /\ m !! "storage_args" = Some e /\ m !! "debug" = Some f.
Proof.
  unfold six_arguments. cbn zeta.
  repeat split;
    repeat (first [ apply lookup_insert_eq
                  | rewrite lookup_insert_ne by (intros H; discriminate H) ]).
Qed.

Lemma six_arguments_keys (a b c d e f : pyval) (k : string) :
  is_Some (six_arguments a b c d e f !! k) ->
  k ∈ ["huge_tree"; "keep_comments"; "auto_match"; "storage"; "storage_args"; "debug"].
Proof.
  unfold six_arguments. rewrite !lookup_insert_is_Some, lookup_empty.
  intros H. repeat (destruct H as [<-|[_ H]]; [set_solver|]).
  destruct H as [x Hx]. discriminate Hx.
Qed.

Lemma BaseFetcher_init_arguments
    (huge_tree keep_comments auto_match storage storage_args debug automatch_domain : pyval)
    (w : world) (t0 : trace) :
  exists new,
    BaseFetcher.init huge_tree keep_comments auto_match storage storage_args debug
      automatch_domain w t0
    = (Returns (BaseFetcher.mk
         (if override_accepted automatch_domain then
            <["automatch_domain" := automatch_domain]>
              (six_arguments huge_tree keep_comments auto_match storage storage_args debug)
          else six_arguments huge_tree keep_comments auto_match storage storage_args debug)),
       t0 ++ EvSetupLogging (if truthy debug then "debug" else "info") :: new).
Proof.
  rewrite BaseFetcher_init_run. unfold override_accepted, six_arguments.
  destruct (truthy automatch_domain); cbn [andb].
  - destruct (bool_decide (type_of automatch_domain = TStr)); eexists; reflexivity.
  - eexists. reflexivity.
Qed.

(** X1.  [BaseFetcher.__init__] always builds a fetcher.  Its adaptor
    arguments hold the six parser arguments as they were given, under their
    own names, and hold [automatch_domain] exactly when the value given is
    true in a condition and of type [str]; no other key is ever there.  The
    logging set-up is the first thing done, at level [debug] when [debug] is
    true and [info] otherwise. *)
Theorem fetcher_config_contents
    (huge_tree keep_comments auto_match storage storage_args debug automatch_domain : pyval)
    (w : world) (t0 : trace) :
  exists self new,
    BaseFetcher.init huge_tree keep_comments auto_match storage storage_args debug
      automatch_domain w t0
    = (Returns self,
       t0 ++ EvSetupLogging (if truthy debug then "debug" else "info") :: new)
    /\ BaseFetcher.adaptor_arguments self !! "huge_tree" = Some huge_tree
    /\ BaseFetcher.adaptor_arguments self !! "keep_comments" = Some keep_comments
    /\ BaseFetcher.adaptor_arguments self !! "auto_match" = Some auto_match
    /\ BaseFetcher.adaptor_arguments self !! "storage" = Some storage
    /\ BaseFetcher.adaptor_arguments self !! "storage_args" = Some storage_args
    /\ BaseFetcher.adaptor_arguments self !! "debug" = Some debug
    /\ BaseFetcher.adaptor_arguments self !! "automatch_domain"
       = (if override_accepted automatch_domain then Some automatch_domain else None)
    /\ (forall k, is_Some (BaseFetcher.adaptor_arguments self !! k) ->
          k ∈ ["huge_tree"; "keep_comments"; "auto_match"; "storage"; "storage_args";
               "debug"; "automatch_domain"]).
Proof.
  destruct (BaseFetcher_init_arguments huge_tree keep_comments auto_match storage
              storage_args debug automatch_domain w t0) as [new Hrun].
  eexists. exists new. split; [exact Hrun|]. cbn [BaseFetcher.adaptor_arguments].
  pose proof (six_arguments_lookup huge_tree keep_comments auto_match storage
                storage_args debug) as (H1 & H2 & H3 & H4 & H5 & H6).
  pose proof (base_arguments_no_override huge_tree keep_comments auto_match storage
                storage_args debug) as Hno.
  fold (six_arguments huge_tree keep_comments auto_match storage storage_args debug)
    in Hno.
  destruct (override_accepted automatch_domain).
  - rewrite !lookup_insert_ne by (intros H; discriminate H).
    repeat (split; [assumption|]).
    split; [apply lookup_insert_eq|].
    intros k. rewrite lookup_insert_is_Some. intros [<-|[_ Hk]]; [set_solver|].
    apply six_arguments_keys in Hk. set_solver.
  - repeat (split; [assumption|]).
    intros k Hk. apply six_arguments_keys in Hk. set_solver.
Qed.

Lemma fetcher_config_contents_witness :
  exists self,
    fst (BaseFetcher.init (PyBool true) (PyBool false) (PyBool true)
           (PyObj 9 KClassObject [] (Signature []) true) PyNone (PyBool false)
           (PyStr "example.com") quiet_world []) = Returns self
    /\ BaseFetcher.adaptor_arguments self !! "automatch_domain"
       = Some (PyStr "example.com")
    /\ BaseFetcher.adaptor_arguments self !! "huge_tree" = Some (PyBool true).
Proof.
  destruct (fetcher_config_contents (PyBool true) (PyBool false) (PyBool true)
              (PyObj 9 KClassObject [] (Signature []) true) PyNone (PyBool false)
              (PyStr "example.com") quiet_world [])
    as (self & new & Hrun & Hhuge & _ & _ & _ & _ & _ & Hover & _).
  exists self. rewrite Hrun. split; [reflexivity|]. split; [exact Hover|exact Hhuge].
Defined.

(** X2.  [Response.__init__] keeps the transport data it is given, and takes
    [automatch_domain] out of the keyword arguments before they reach the
    parser: the parser never sees that key, and sees every other key with
    the value the caller gave. *)
Theorem response_pops_override (url text : string) (body : list Byte.byte)
    (status : Z) (reason : string) (cookies headers request_headers : gmap string pyval)
    (encoding : string) (adaptor_arguments : gmap string pyval) :
  let r := Response.init url text body status reason cookies headers request_headers
             encoding adaptor_arguments in
  Adaptor.arguments (Response.adaptor r) !! "automatch_domain" = None
  /\ (forall k, k <> "automatch_domain" ->
        Adaptor.arguments (Response.adaptor r) !! k = adaptor_arguments !! k)
  /\ (adaptor_arguments !! "automatch_domain" = None ->
        Adaptor.arguments (Response.adaptor r) = adaptor_arguments)
  /\ Response.status r = status /\ Response.reason r = reason
  /\ Response.cookies r = cookies /\ Response.headers r = headers
  /\ Response.request_headers r = request_headers
  /\ Adaptor.text (Response.adaptor r) = text
  /\ Adaptor.body (Response.adaptor r) = body
  /\ Adaptor.encoding (Response.adaptor r) = encoding.
Proof.
  cbn. split; [apply lookup_delete_eq|].
  split; [intros k Hk; apply lookup_delete_ne; congruence|].
  split; [apply delete_id|]. repeat split.
Qed.

Lemma response_pops_override_witness :
  Adaptor.arguments
    (Response.adaptor
       (Response.init "http://sub.example.org/x" "<html></html>" [] 200 "OK" ∅ ∅ ∅
          "utf-8" (BaseFetcher.adaptor_arguments default_config)))
  = BaseFetcher.adaptor_arguments default_config.
Proof.
  apply (proj1 (proj2 (proj2
    (response_pops_override "http://sub.example.org/x" "<html></html>" [] 200 "OK"
       ∅ ∅ ∅ "utf-8" (BaseFetcher.adaptor_arguments default_config))))).
  apply base_arguments_no_override.
Defined.

(** X3.  From the fetcher to the response: a response built with the adaptor
    arguments of a fetcher has the override of the fetcher as its url when
    the fetcher took one (a true value of type [str]), and the request url
    in every other case; and the parser gets the six parser arguments of the
    fetcher, nothing more. *)
Theorem override_end_to_end
    (huge_tree keep_comments auto_match storage storage_args debug automatch_domain : pyval)
    (w : world) (t0 : trace) :
  exists self tr,
    BaseFetcher.init huge_tree keep_comments auto_match storage storage_args debug
      automatch_domain w t0 = (Returns self, tr)
    /\ forall (url text : string) (body : list Byte.byte) (status : Z) (reason : string)
              (cookies headers request_headers : gmap string pyval) (encoding : string),
         let r := Response.init url text body status reason cookies headers
                    request_headers encoding (BaseFetcher.adaptor_arguments self) in
         Response.url r
         = (if override_accepted automatch_domain then automatch_domain else PyStr url)
         /\ Adaptor.arguments (Response.adaptor r)
            = six_arguments huge_tree keep_comments auto_match storage storage_args debug.
Proof.
  destruct (BaseFetcher_init_arguments huge_tree keep_comments auto_match storage
              storage_args debug automatch_domain w t0) as [new Hrun].
  eexists. eexists. split; [exact Hrun|].
  intros url text body status reason cookies headers request_headers encoding.
  cbn zeta. rewrite Response_url_eq. cbn [BaseFetcher.adaptor_arguments].
  pose proof (base_arguments_no_override huge_tree keep_comments auto_match storage
                storage_args debug) as Hno.
  fold (six_arguments huge_tree keep_comments auto_match storage storage_args debug)
    in Hno.
  unfold Response.init. cbn [Response.adaptor Adaptor.arguments].
  destruct (override_accepted automatch_domain) eqn:Hacc.
  - apply andb_true_iff in Hacc as [Htrue _].
    rewrite lookup_insert_eq. unfold or_. simpl. rewrite Htrue.
    split; [reflexivity|]. rewrite delete_insert_eq. apply delete_id, Hno.
  - rewrite Hno. split; [reflexivity|]. apply delete_id, Hno.
Qed.

(** *** The dispatchers, call by call *)

Lemma runs_engine_direct (cls : callee) (args : list pyval)
    (kwargs : list (string * pyval)) (method : string) (margs : list pyval)
    (mkwargs : list (string * pyval)) :
  runs_engine [] cls args kwargs method margs mkwargs
    (engine ← extern (EvInstantiate cls args kwargs);
     extern (EvInvoke engine method margs mkwargs)).
Proof.
  intros w t0.
  apply (instantiate_then_invoke (EvInstantiate cls args kwargs)
           (fun engine => EvInvoke engine method margs mkwargs)).
Qed.

Lemma runs_engine_direct_ret (cls : callee) (args : list pyval)
    (kwargs : list (string * pyval)) (method : string) (margs : list pyval)
    (mkwargs : list (string * pyval)) :
  runs_engine [] cls args kwargs method margs mkwargs
    (engine ← extern (EvInstantiate cls args kwargs);
     response_object ← extern (EvInvoke engine method margs mkwargs);
     mret response_object).
Proof.
  intros w t0.
  rewrite (bind_assoc_ret _ (fun engine => EvInvoke engine method margs mkwargs)).
  apply runs_engine_direct.
Qed.

(** X4.  Each of the four methods of [Fetcher] builds a [StaticEngine] from
    [follow_redirects], [timeout] and the adaptor arguments of the fetcher,
    and calls the method of its own name on it, once, with [url],
    [stealthy_headers] and the caller's keyword arguments.  The outcome is
    the outcome of that call, returned or raised; when the engine cannot be
    built, its exception reaches the caller and no method is called. *)
Theorem http_methods_run_static_engine (self : BaseFetcher.t)
    (url follow_redirects timeout stealthy_headers : pyval)
    (kwargs : list (string * pyval)) :
  runs_engine [] (Builtin "StaticEngine") [follow_redirects; timeout]
    [("adaptor_arguments", PyDict (BaseFetcher.adaptor_arguments self))]
    "get" [url; stealthy_headers] kwargs
    (Fetcher.get self url follow_redirects timeout stealthy_headers kwargs)
  /\ runs_engine [] (Builtin "StaticEngine") [follow_redirects; timeout]
    [("adaptor_arguments", PyDict (BaseFetcher.adaptor_arguments self))]
    "post" [url; stealthy_headers] kwargs
    (Fetcher.post self url follow_redirects timeout stealthy_headers kwargs)
  /\ runs_engine [] (Builtin "StaticEngine") [follow_redirects; timeout]
    [("adaptor_arguments", PyDict (BaseFetcher.adaptor_arguments self))]
    "put" [url; stealthy_headers] kwargs
    (Fetcher.put self url follow_redirects timeout stealthy_headers kwargs)
  /\ runs_engine [] (Builtin "StaticEngine") [follow_redirects; timeout]
    [("adaptor_arguments", PyDict (BaseFetcher.adaptor_arguments self))]
    "delete" [url; stealthy_headers] kwargs
    (Fetcher.delete self url follow_redirects timeout stealthy_headers kwargs).
Proof. repeat split; apply runs_engine_direct_ret. Qed.

(** X5.  The two browser fetchers build their engine from keyword arguments
    only, each under a name of its own, the adaptor arguments of the fetcher
    among them; the url is not given to the engine but to its [fetch], which
    is called once with the url alone.  The outcome is the outcome of that
    call; when the engine cannot be built, its exception reaches the caller
    and [fetch] is not called. *)
Theorem browser_fetchers_run_their_engine (self : BaseFetcher.t) :
  (forall url headless block_images disable_resources block_webrtc allow_webgl
          network_idle addons timeout page_action wait_selector humanize
          wait_selector_state google_search extra_headers proxy os_randomize,
     exists kwargs,
       NoDup (kwargs.*1)
       /\ length kwargs = 17%nat
       /\ ("adaptor_arguments", PyDict (BaseFetcher.adaptor_arguments self)) ∈ kwargs
       /\ ("url" ∉ kwargs.*1)
       /\ runs_engine [] (Builtin "CamoufoxEngine") [] kwargs "fetch" [url] []
            (StealthyFetcher.fetch self url headless block_images disable_resources
               block_webrtc allow_webgl network_idle addons timeout page_action
               wait_selector humanize wait_selector_state google_search extra_headers
               proxy os_randomize))
  /\ (forall url headless disable_resources useragent network_idle timeout page_action
             wait_selector wait_selector_state hide_canvas disable_webgl extra_headers
             google_search proxy stealth cdp_url nstbrowser_mode nstbrowser_config,
     exists kwargs,
       NoDup (kwargs.*1)
       /\ length kwargs = 18%nat
       /\ ("adaptor_arguments", PyDict (BaseFetcher.adaptor_arguments self)) ∈ kwargs
       /\ ("url" ∉ kwargs.*1)
       /\ runs_engine [] (Builtin "PlaywrightEngine") [] kwargs "fetch" [url] []
            (PlayWrightFetcher.fetch self url headless disable_resources useragent
               network_idle timeout page_action wait_selector wait_selector_state
               hide_canvas disable_webgl extra_headers google_search proxy stealth
               cdp_url nstbrowser_mode nstbrowser_config)).
Proof.
  split; intros; eexists;
    (split; [|split; [|split; [|split; [|apply runs_engine_direct]]]]).
  - apply (bool_decide_unpack _). vm_compute. exact I.
  - reflexivity.
  - unfold adaptor_kwarg. set_solver.
  - apply (bool_decide_unpack _). vm_compute. exact I.
  - apply (bool_decide_unpack _). vm_compute. exact I.
  - reflexivity.
  - unfold adaptor_kwarg. set_solver.
  - apply (bool_decide_unpack _). vm_compute. exact I.
Qed.

(** X6.  [CustomFetcher.fetch] on an engine that passes the capability
    check.  When the caller's keyword arguments do not hold the key
    [adaptor_arguments]: after the check, the engine the caller supplied is
    itself called, without positional arguments, with the adaptor arguments
    of the fetcher first and the caller's keyword arguments after them, in
    their order; then [fetch] is called once on what it returns, with the
    url alone.  The outcome is the outcome of that call; an exception of the
    instantiation reaches the caller and [fetch] is not called.  When they
    do hold that key, the call of the engine cannot be built: a [TypeError]
    is raised after the check, and the engine is not called. *)
Theorem custom_fetch_runs_usable_engine (self : BaseFetcher.t)
    (url browser_engine : pyval) (kwargs : list (string * pyval)) :
  check_if_engine_usable browser_engine = Returns browser_engine ->
  ("adaptor_arguments" ∉ kwargs.*1 ->
   runs_engine [EvCheckEngine browser_engine] (Supplied browser_engine) []
     (("adaptor_arguments", PyDict (BaseFetcher.adaptor_arguments self)) :: kwargs)
     "fetch" [url] []
     (CustomFetcher.fetch self url browser_engine kwargs))
  /\ ("adaptor_arguments" ∈ kwargs.*1 ->
      forall (w : world) (t0 : trace),
        CustomFetcher.fetch self url browser_engine kwargs w t0
        = (Raises (PyError "TypeError" [browser_engine; PyStr "adaptor_arguments"]),
           t0 ++ [EvCheckEngine browser_engine])).
Proof.
  intros Hok. split.
  - intros Hfree w t0.
    unfold CustomFetcher.fetch, call_check_if_engine_usable,
      mbind, M_bind, bind, emit, lift, extern, adaptor_kwarg.
    cbn beta iota. rewrite Hok. cbn beta iota zeta.
    rewrite bool_decide_eq_false_2 by exact Hfree.
    rewrite <- !app_assoc. cbn [app].
    destruct (w _) as [inst|e]; [|reflexivity].
    rewrite <- !app_assoc. reflexivity.
  - intros Hdup w t0.
    unfold CustomFetcher.fetch, call_check_if_engine_usable,
      mbind, M_bind, bind, emit, lift, raise.
    cbn beta iota. rewrite Hok. cbn beta iota zeta.
    rewrite bool_decide_eq_true_2 by exact Hdup. reflexivity.
Qed.

Lemma custom_fetch_runs_usable_engine_witness :
  runs_engine [EvCheckEngine engine_well_formed] (Supplied engine_well_formed) []
    [("adaptor_arguments", PyDict (BaseFetcher.adaptor_arguments default_config));
     ("headless", PyBool true)]
    "fetch" [PyStr "http://example.org/"] []
    (CustomFetcher.fetch default_config (PyStr "http://example.org/")
       engine_well_formed [("headless", PyBool true)])
  /\ CustomFetcher.fetch default_config (PyStr "http://example.org/")
       engine_well_formed [("headless", PyBool true)] failing_world []
     = (Raises (BackendError (PyStr "launch failed")),
        [EvCheckEngine engine_well_formed;
         EvInstantiate (Supplied engine_well_formed) []
           [("adaptor_arguments", PyDict (BaseFetcher.adaptor_arguments default_config));
            ("headless", PyBool true)]])
  /\ CustomFetcher.fetch default_config (PyStr "http://example.org/")
       engine_well_formed [("adaptor_arguments", PyDict ∅)] quiet_world []
     = (Raises (PyError "TypeError" [engine_well_formed; PyStr "adaptor_arguments"]),
        [] ++ [EvCheckEngine engine_well_formed]).
Proof.
  split; [|split].
  - apply (proj1 (custom_fetch_runs_usable_engine default_config
                    (PyStr "http://example.org/") engine_well_formed
                    [("headless", PyBool true)] eq_refl)).
    apply (bool_decide_unpack _). vm_compute. exact I.
  - apply (proj1 (custom_fetch_runs_usable_engine default_config
                    (PyStr "http://example.org/") engine_well_formed
                    [("headless", PyBool true)] eq_refl)).
    apply (bool_decide_unpack _). vm_compute. exact I.
  - apply (proj2 (custom_fetch_runs_usable_engine default_config
                    (PyStr "http://example.org/") engine_well_formed
                    [("adaptor_arguments", PyDict ∅)] eq_refl)).
    apply (bool_decide_unpack _). vm_compute. exact I.
Defined.

(** *** The capability check reads [fetch] only *)

(** X7.  What [check_if_engine_usable] decides depends on the attribute
    [fetch] of the candidate alone: two candidates with the same attributes
    are both returned, or both refused with the same exception (one of the
    three [TypeError]s of the check, or what [inspect.signature] raises for
    their [fetch]), whatever their identity, their kind and their truth
    value, and whether they can be called themselves or not.  The check does
    not ask that the engine can be instantiated. *)
Theorem engine_check_reads_fetch_only (attrs : list (string * pyval))
    (addr1 addr2 : positive) (kind1 kind2 : objkind) (sig1 sig2 : callsig)
    (truth1 truth2 : bool) :
  let one := PyObj addr1 kind1 attrs sig1 truth1 in
  let two := PyObj addr2 kind2 attrs sig2 truth2 in
  (check_if_engine_usable one = Returns one /\ check_if_engine_usable two = Returns two)
  \/ (exists e, check_if_engine_usable one = Raises e
                /\ check_if_engine_usable two = Raises e).
Proof.
  intros one two.
  destruct (assoc "fetch" attrs) as [f|] eqn:Hget.
  - rewrite (check_present one f Hget), (check_present two f Hget).
    destruct (callable f); [|eauto].
    destruct (inspect_signature f) as [parameters|e]; [|eauto].
    destruct (_ <? _)%nat; eauto.
  - rewrite (check_missing one Hget), (check_missing two Hget). eauto.
Qed.

(** *** The type validator, across its modes *)

Section TypeValidatorModes.

Context (is_ : pyval -> pyval -> bool) (globals : list (string * pyval)).

Local Abbreviation check := (check_type_validity is_ globals).
Local Abbreviation name_of := (var_name_of is_ globals).

(** X8.  The two modes of [check_type_validity] agree on what is valid.  When
    the critical call returns, the lenient call returns the same value and
    logs nothing.  When the critical call raises [TypeError msg], the lenient
    call returns the default and logs one record, at the level of an error,
    whose text is [msg] after the prefix "[Ignored] ".  The critical call
    never logs, and neither call touches an engine. *)
Theorem validator_modes_agree (variable : pyval) (valid_types : option (list pytype))
    (default_value : pyval) (param_name : option string) (w : world) (t0 : trace) :
  snd (check variable valid_types default_value true param_name w t0) = t0
  /\ match fst (check variable valid_types default_value true param_name w t0) with
     | Returns v =>
         v = variable
         /\ check variable valid_types default_value false param_name w t0
            = (Returns variable, t0)
     | Raises (TypeError msg) =>
         check variable valid_types default_value false param_name w t0
         = (Returns default_value, t0 ++ [EvLog ERROR ("[Ignored] " +:+ msg)])
     | Raises _ => False
     end.
Proof.
  destruct (is_none variable) eqn:Hnone.
  - destruct variable; try discriminate Hnone.
    destruct (decide (TNoneType ∈ default [] valid_types)) as [Hin|Hin].
    + rewrite !check_none_allowed by exact Hin. cbn. auto.
    + rewrite !check_none_refused by exact Hin. cbn. auto.
  - rewrite !check_value by exact Hnone.
    destruct (default [] valid_types) as [|k ks]; [cbn; auto|].
    destruct (existsb (isinstance variable) (k :: ks)); cbn; auto.
Qed.

(** X9.  Allowing more kinds never turns a valid value into an invalid one,
    as long as some kind was asked for: a value (or [None]) that the critical
    call accepts for a non-empty list of kinds is accepted for every longer
    list, on either side, in both modes. *)
Theorem validator_kinds_monotone (variable : pyval) (kinds more : list pytype)
    (default_value : pyval) (critical : bool) (param_name : option string)
    (w : world) (t0 : trace) :
  kinds <> [] ->
  check variable (Some kinds) default_value true param_name w t0 = (Returns variable, t0) ->
  check variable (Some (kinds ++ more)) default_value critical param_name w t0
  = (Returns variable, t0)
  /\ check variable (Some (more ++ kinds)) default_value critical param_name w t0
     = (Returns variable, t0).
Proof.
  intros Hne Hok.
  destruct (is_none variable) eqn:Hnone.
  - destruct variable; try discriminate Hnone.
    destruct (decide (TNoneType ∈ kinds)) as [Hin|Hin].
    + split; apply check_none_allowed; cbn; set_solver.
    + rewrite check_none_refused in Hok by exact Hin. cbn in Hok. discriminate Hok.
  - assert (Hdef : forall l : list pytype, default [] (Some l) = l) by reflexivity.
    rewrite check_value, Hdef in Hok by exact Hnone.
    destruct kinds as [|k ks]; [congruence|].
    destruct (existsb (isinstance variable) (k :: ks)) eqn:Hex;
      [|destruct critical; discriminate Hok].
    split; rewrite check_value, Hdef by exact Hnone.
    + change ((k :: ks) ++ more) with (k :: (ks ++ more)).
      change (k :: ks ++ more) with ((k :: ks) ++ more).
      rewrite existsb_app, Hex. reflexivity.
    + destruct (more ++ k :: ks) as [|k' ks'] eqn:Hl.
      * reflexivity.
      * rewrite <- Hl, existsb_app, Hex, orb_true_r. reflexivity.
Qed.

(** X10.  The kind [object] admits every value that is there, and does not
    admit [None]: absence is admitted by [NoneType] in the list and by
    nothing else, although [None] is an instance of [object]. *)
Theorem validator_object_kind (kinds : list pytype) (default_value : pyval)
    (param_name : option string) (w : world) (t0 : trace) :
  (forall variable critical, TObject ∈ kinds -> is_none variable = false ->
     check variable (Some kinds) default_value critical param_name w t0
     = (Returns variable, t0))
  /\ isinstance PyNone TObject = true
  /\ (TNoneType ∉ kinds ->
      check PyNone (Some kinds) default_value true param_name w t0
      = (Raises (TypeError (none_msg (name_of param_name PyNone))), t0)).
Proof.
  split; [|split; [reflexivity|]].
  - intros variable critical Hin Hnone.
    rewrite check_value by exact Hnone.
    change (default [] (Some kinds)) with kinds.
    destruct kinds as [|k ks]; [reflexivity|].
    assert (Hex : existsb (isinstance variable) (k :: ks) = true).
    { apply existsb_exists. exists TObject. split.
      - apply list_elem_of_In. exact Hin.
      - unfold isinstance, issubclass. rewrite (bool_decide_eq_true_2 (TObject = TObject))
          by reflexivity. rewrite orb_true_r. reflexivity. }
    rewrite Hex. reflexivity.
  - intros Hin. rewrite check_none_refused by exact Hin. reflexivity.
Qed.

(** X11.  A name given by the caller settles the text of the messages: with
    a non-empty [param_name] the argument is named by it, and the whole
    outcome of the call, events included, is the same in any module and
    under any notion of identity. *)
Theorem validator_explicit_name (is_' : pyval -> pyval -> bool)
    (globals' : list (string * pyval)) (variable : pyval)
    (valid_types : option (list pytype)) (default_value : pyval) (critical : bool)
    (name : string) (w : world) (t0 : trace) :
  name <> EmptyString ->
  name_of (Some name) variable = name
  /\ check variable valid_types default_value critical (Some name) w t0
     = check_type_validity is_' globals' variable valid_types default_value critical
         (Some name) w t0.
Proof.
  intros Hname.
  assert (Hn : forall i g, var_name_of i g (Some name) variable = name).
  { intros i g. unfold var_name_of, str_or.
    destruct (String.eqb_spec name EmptyString) as [Heq|_]; [congruence|].
    destruct (String.eqb_spec name EmptyString) as [Heq|_]; [congruence|].
    reflexivity. }
  split; [apply Hn|].
  unfold check_type_validity. rewrite !Hn. reflexivity.
Qed.

(** X12.  The name [get_variable_name] finds.  When a global of the module
    is the value itself, it is the name of the first such global.  When none
    is, the search ends in the frame of [get_variable_name], where the value
    is bound to the parameter [var]: the name found is "var", and this is how
    a refused argument is named when the caller gave no name. *)
Theorem variable_name_discovery (variable : pyval) :
  (forall before name value after,
     globals = before ++ (name, value) :: after ->
     Forall (fun binding => is_ binding.2 variable = false) before ->
     is_ value variable = true ->
     get_variable_name is_ globals variable = Some name)
  /\ (Forall (fun binding => is_ binding.2 variable = false) globals ->
      is_ variable variable = true ->
      get_variable_name is_ globals variable = Some "var"
      /\ name_of None variable = "var"
      /\ name_of (Some EmptyString) variable = "var").
Proof.
  assert (Hskip : forall before rest,
            Forall (fun binding => is_ binding.2 variable = false) before ->
            name_in_scope is_ variable (before ++ rest)
            = name_in_scope is_ variable rest).
  { intros before rest Hall. induction Hall as [|[n v] before Hv _ IH]; [reflexivity|].
    cbn in Hv |- *. rewrite Hv. exact IH. }
  split.
  - intros before name value after Hg Hbefore Hval.
    unfold get_variable_name. cbn [name_in_scopes].
    rewrite Hg, (Hskip before _ Hbefore). cbn. rewrite Hval. reflexivity.
  - intros Hall Hrefl.
    assert (Hfound : get_variable_name is_ globals variable = Some "var").
    { unfold get_variable_name. cbn [name_in_scopes].
      rewrite <- (app_nil_r globals), (Hskip globals [] Hall). cbn.
      rewrite Hrefl. reflexivity. }
    split; [exact Hfound|].
    unfold var_name_of, str_or. rewrite Hfound. split; reflexivity.
Qed.

End TypeValidatorModes.

Lemma validator_kinds_monotone_witness :
  check_type_validity same_object sample_globals (PyBool true) (Some ([TInt] ++ [TStr]))
    (PyInt 30) false (Some "retries") quiet_world []
  = (Returns (PyBool true), [])
  /\ check_type_validity same_object sample_globals (PyBool true) (Some ([TStr] ++ [TInt]))
       (PyInt 30) false (Some "retries") quiet_world []
     = (Returns (PyBool true), []).
Proof.
  apply (validator_kinds_monotone same_object sample_globals (PyBool true) [TInt] [TStr]
           (PyInt 30) false (Some "retries") quiet_world []).
  - discriminate.
  - reflexivity.
Defined.

Lemma validator_object_kind_witness :
  check_type_validity same_object sample_globals (PyInt 0) (Some [TStr; TObject])
    (PyInt 30) true None quiet_world []
  = (Returns (PyInt 0), [])
  /\ check_type_validity same_object sample_globals PyNone (Some [TObject])
       (PyInt 30) true None quiet_world []
     = (Raises (TypeError ("Argument " +:+ dquote +:+ "var" +:+ dquote
                           +:+ " cannot be None")), []).
Proof.
  split.
  - apply (proj1 (validator_object_kind same_object sample_globals [TStr; TObject]
                    (PyInt 30) None quiet_world []) (PyInt 0) true).
    + apply (bool_decide_unpack _). vm_compute. exact I.
    + reflexivity.
  - apply (proj2 (proj2 (validator_object_kind same_object sample_globals [TObject]
                    (PyInt 30) None quiet_world []))).
    apply (bool_decide_unpack _). vm_compute. exact I.
Defined.

Lemma validator_explicit_name_witness :
  var_name_of same_object sample_globals (Some "timeout") (PyList []) = "timeout"
  /\ check_type_validity same_object sample_globals (PyList []) (Some [TInt])
       (PyInt 30) false (Some "timeout") quiet_world []
     = check_type_validity (fun _ _ => true) [] (PyList []) (Some [TInt])
         (PyInt 30) false (Some "timeout") quiet_world [].
Proof.
  apply (validator_explicit_name same_object sample_globals (fun _ _ => true) []
           (PyList []) (Some [TInt]) (PyInt 30) false "timeout" quiet_world []).
  discriminate.
Defined.

Lemma variable_name_discovery_witness :
  get_variable_name same_object sample_globals (PyObj 20 KFunction [] (Signature ["page"]) true)
  = Some "do_nothing"
  /\ get_variable_name same_object sample_globals PyNone = Some "var".
Proof.
  split.
  - apply (proj1 (variable_name_discovery same_object sample_globals
                    (PyObj 20 KFunction [] (Signature ["page"]) true))
             [("__name__", PyStr "scrapling.engines.toolbelt.custom")]
             "do_nothing" (PyObj 20 KFunction [] (Signature ["page"]) true) []).
    + reflexivity.
    + repeat constructor.
    + reflexivity.
  - apply (proj2 (variable_name_discovery same_object sample_globals PyNone)).
    + repeat constructor.
    + reflexivity.
Defined.

(** *** Known and unknown status codes *)

Lemma phrase_table_entries :
  Forall (fun kv : Z * string =>
            kv.2 <> "Unknown Status Code" /\ kv.2 <> EmptyString
            /\ 100 <= kv.1 /\ kv.1 <= 511)
         StatusText.phrase_table.
Proof. apply (bool_decide_unpack _). vm_compute. exact I. Qed.

(** X13.  The answer of [StatusText.get] tells a known code from an unknown
    one: in every state the cache reaches, the phrase is "Unknown Status
    Code" exactly for the integers that are not in the table, which include
    every integer below 100 and above 511; and no answer is the empty
    string. *)
Theorem status_phrase_unknown_iff (history : list Z) (code : Z) :
  let phrase := fst (StatusText.get code (StatusText.lookups history Cache.empty)) in
  (phrase = "Unknown Status Code" <-> code ∉ StatusText.phrase_table.*1)
  /\ (code < 100 \/ 511 < code -> phrase = "Unknown Status Code")
  /\ phrase <> EmptyString.
Proof.
  intros phrase.
  destruct empty_invariant as (Hd0 & Hc0 & Hl0).
  destruct (lookups_invariant history _ Hd0 Hc0 Hl0) as (_ & Hc & _).
  assert (Hval : phrase = StatusText.get_body code) by (apply get_value, Hc).
  pose proof phrase_table_entries as Hall. rewrite Forall_forall in Hall.
  assert (Hknown : code ∈ StatusText.phrase_table.*1 ->
            exists p, (code, p) ∈ StatusText.phrase_table /\ phrase = p).
  { intros Hin. apply list_elem_of_fmap in Hin as ([k p] & Hk & Hin).
    cbn in Hk. subst k. exists p. split; [exact Hin|].
    rewrite Hval. apply get_body_known, Hin. }
  split; [split|split].
  - intros Hunknown Hin. destruct (Hknown Hin) as (p & Hp & Heq).
    destruct (Hall _ Hp) as (Hne & _). cbn in Hne. congruence.
  - intros Hout. rewrite Hval. apply get_body_unknown, Hout.
  - intros Hrange. rewrite Hval. apply get_body_unknown.
    intros Hin. destruct (Hknown Hin) as (p & Hp & _).
    destruct (Hall _ Hp) as (_ & _ & Hlo & Hhi). cbn in Hlo, Hhi. lia.
  - destruct (decide (code ∈ StatusText.phrase_table.*1)) as [Hin|Hout].
    + destruct (Hknown Hin) as (p & Hp & Heq).
      destruct (Hall _ Hp) as (_ & Hne & _). cbn in Hne. congruence.
    + rewrite Hval, (get_body_unknown _ Hout). discriminate.
Qed.

Lemma status_phrase_unknown_iff_witness :
  fst (StatusText.get 99 (StatusText.lookups [200; 99; 404] Cache.empty))
  = "Unknown Status Code"
  /\ 418 ∈ StatusText.phrase_table.*1.
Proof.
  split.
  - apply (proj1 (proj2 (status_phrase_unknown_iff [200; 99; 404] 99))). lia.
  - destruct (decide (418 ∈ StatusText.phrase_table.*1)) as [Hin|Hout]; [exact Hin|].
    exfalso.
    pose proof (proj2 (proj1 (status_phrase_unknown_iff [] 418)) Hout) as Hphrase.
    vm_compute in Hphrase. discriminate Hphrase.
Defined.

(** *** Two tests of "is a string" *)

(** X14.  The validator and the fetcher do not test for a string the same
    way.  [check_type_validity] uses [isinstance], and accepts an instance of
    a subclass of [str] where [str] is allowed; [BaseFetcher.__init__]
    compares [type(...)] with [str] itself, and refuses the same value as
    [automatch_domain], with the warning. *)
Theorem str_subclass_two_verdicts (is_ : pyval -> pyval -> bool)
    (globals : list (string * pyval)) (value : pyval)
    (huge_tree keep_comments auto_match storage storage_args debug default_value : pyval)
    (critical : bool) (param_name : option string) (w : world) (t0 : trace) :
  isinstance value TStr = true ->
  type_of value <> TStr ->
  truthy value = true ->
  check_type_validity is_ globals value (Some [TStr]) default_value critical
    param_name w t0 = (Returns value, t0)
  /\ BaseFetcher.init huge_tree keep_comments auto_match storage storage_args debug
       value w t0
     = (Returns (BaseFetcher.mk (six_arguments huge_tree keep_comments auto_match
                                   storage storage_args debug)),
        t0 ++ [EvSetupLogging (if truthy debug then "debug" else "info");
               EvLog WARNING BaseFetcher.warning_text]).
Proof.
  intros Hinst Hty Htrue. split.
  - assert (Hnone : is_none value = false)
      by (destruct value; try reflexivity; discriminate Htrue).
    rewrite check_value by exact Hnone. cbn. rewrite Hinst. reflexivity.
  - rewrite BaseFetcher_init_run, Htrue.
    rewrite bool_decide_eq_false_2 by exact Hty. reflexivity.
Qed.

Lemma str_subclass_two_verdicts_witness :
  check_type_validity same_object sample_globals text_handler (Some [TStr]) PyNone true
    (Some "automatch_domain") quiet_world [] = (Returns text_handler, [])
  /\ BaseFetcher.init (PyBool true) (PyBool false) (PyBool true)
       (PyObj 9 KClassObject [] (Signature []) true) PyNone (PyBool false) text_handler
       quiet_world []
     = (Returns default_config,
        [] ++ [EvSetupLogging (if truthy (PyBool false) then "debug" else "info");
               EvLog WARNING BaseFetcher.warning_text]).
Proof.
  apply (str_subclass_two_verdicts same_object sample_globals text_handler
           (PyBool true) (PyBool false) (PyBool true)
           (PyObj 9 KClassObject [] (Signature []) true) PyNone (PyBool false) PyNone true
           (Some "automatch_domain") quiet_world []).
  - reflexivity.
  - discriminate.
  - reflexivity.
Defined.

(** An empty instance of a subclass of [str] is false in a condition: given
    as [automatch_domain], it is taken as no value, without a warning. *)
Example empty_str_subclass_dropped_silently :
  BaseFetcher.init (PyBool true) (PyBool false) (PyBool true)
    (PyObj 9 KClassObject [] (Signature []) true) PyNone (PyBool false)
    empty_text_handler quiet_world []
  = (Returns default_config, [EvSetupLogging "info"]).
Proof. reflexivity. Qed.
